(** * Aegis-Detector: the forensic scoring engine of [aegis_final.py]

    A shallow embedding of [run_forensics], of the start-up code that builds
    [df_master], and of the tick callback [update_system], together with the
    properties of the engine that the specification states.

    Modelling conventions.
    - A pandas [DataFrame] is the list of its rows; a row is the dictionary
      that [row.to_dict()] yields, with the columns that annotation adds
      held as optional keys.
    - A Python exception is a [Raise] result; every partial operation of the
      source ([//], [%], [iloc], [s[0]], [int], a missing key) is partial here.
    - A finite [float] is held as the shortest decimal expansion that
      [repr]/[str] print for it (sign, significant digits, position of the
      decimal point); [nan] and [inf] are not monetary amounts.
    - The arithmetic of the numeric columns is a parameter of the callback
      ([Arith]): the conversion of a cell and of an integer, [+], [*], [/]
      and the column sum. [binary64] is the arithmetic of a float column,
      [exact_arith] the exact rationals that the cells denote; a statement
      that is to hold of the program is made for every arithmetic, or under
      what binary64 guarantees, and a statement that fails in binary64 is
      refuted there. *)

From Stdlib Require Import Ascii String QArith Qabs Qpower Lqa DecimalString.
From Stdlib Require Import SpecFloat PrimFloat FloatOps.
From stdpp Require Import base option list strings gmap.

Open Scope Z_scope.

(** ** Python results and exceptions *)

Inductive PyError : Set :=
  | IndexError
  | ValueError
  | KeyError
  | ZeroDivisionError.

Inductive result (A : Type) : Type :=
  | Ok (a : A)
  | Raise (e : PyError).
Arguments Ok {A} a.
Arguments Raise {A} e.

Definition bind {A B : Type} (m : result A) (f : A -> result B) : result B :=
  match m with
  | Ok a => f a
  | Raise e => Raise e
  end.

Notation "'let!' x ':=' m 'in' k" := (bind m (fun x => k))
  (at level 10, x name, m at level 100, k at level 200).

(** [[f(x) for x in l]] where [f] may raise: the first exception wins. *)
Fixpoint traverse {A B : Type} (f : A -> result B) (l : list A) : result (list B) :=
  match l with
  | [] => Ok []
  | x :: l' =>
      match f x with
      | Ok y =>
          match traverse f l' with
          | Ok ys => Ok (y :: ys)
          | Raise e => Raise e
          end
      | Raise e => Raise e
      end
  end.

(** ** Decimal digits and Python floats *)

Inductive digit : Set := d0 | d1 | d2 | d3 | d4 | d5 | d6 | d7 | d8 | d9.

Definition digit_val (d : digit) : Z :=
  match d with
  | d0 => 0 | d1 => 1 | d2 => 2 | d3 => 3 | d4 => 4
  | d5 => 5 | d6 => 6 | d7 => 7 | d8 => 8 | d9 => 9
  end.

Definition digit_char (d : digit) : ascii :=
  match d with
  | d0 => "0" | d1 => "1" | d2 => "2" | d3 => "3" | d4 => "4"
  | d5 => "5" | d6 => "6" | d7 => "7" | d8 => "8" | d9 => "9"
  end%char.

Fixpoint digits_string (ds : list digit) : string :=
  match ds with
  | [] => EmptyString
  | d :: ds' => String (digit_char d) (digits_string ds')
  end.

(** The integer written by a digit sequence, most significant digit first. *)
Definition digits_Z (ds : list digit) : Z :=
  fold_left (fun acc d => 10 * acc + digit_val d) ds 0.

(** A finite float, as [repr] sees it: the value is
    [(-1)^sign * 0.d1 d2 ... dn * 10^decpt]. *)
Record pyfloat : Set := mk_float {
  f_sign : bool;
  f_digits : list digit;
  f_decpt : Z
}.

(** What the shortest-digits conversion delivers: at least one digit; the
    first digit is [0] only for zero, which is the single digit [0] with the
    point after it. *)
Definition float_wf (x : pyfloat) : bool :=
  match f_digits x with
  | [] => false
  | d0 :: rest => match rest with [] => f_decpt x =? 1 | _ => false end
  | _ :: _ => true
  end.

Definition float_value (x : pyfloat) : Q :=
  ((if f_sign x then -1 else 1)
   * inject_Z (digits_Z (f_digits x))
   * (10 ^ (f_decpt x - Z.of_nat (length (f_digits x)))))%Q.

(** [abs(x)] *)
Definition py_abs (x : pyfloat) : pyfloat :=
  mk_float false (f_digits x) (f_decpt x).

(** [x > 0] *)
Definition py_gt0 (x : pyfloat) : bool :=
  match (float_value x ?= 0)%Q with
  | Gt => true
  | _ => false
  end.

(** ** [str] of a float *)

Fixpoint zeros (n : nat) : string :=
  match n with
  | O => EmptyString
  | S n' => String "0" (zeros n')
  end.

(** The exponent field of [repr]: a sign and at least two digits. *)
Definition exp_field (e : Z) : string :=
  let a := Z.abs e in
  ((if (0 <=? e)%Z then "+" else "-")
   ++ (if (a <? 10)%Z then "0" else "")
   ++ NilZero.string_of_uint (N.to_uint (Z.to_N a)))%string.

(** [str(x)] for a finite float: exponent notation when the decimal point
    lies more than 16 places right or at least 4 places left of the first
    digit, positional notation with a digit on both sides of the point
    otherwise. *)
Definition float_str (x : pyfloat) : string :=
  let ds := f_digits x in
  let n := Z.of_nat (length ds) in
  let p := f_decpt x in
  ((if f_sign x then "-" else "") ++
   (if ((p <=? -4) || (16 <? p))%Z then
      match ds with
      | [] => EmptyString
      | d :: rest =>
          String (digit_char d)
            (match rest with
             | [] => EmptyString
             | _ => String "." (digits_string rest)
             end)
      end ++ "e" ++ exp_field (p - 1)
    else if (p <=? 0)%Z then
      "0." ++ zeros (Z.to_nat (- p)) ++ digits_string ds
    else if (p <? n)%Z then
      digits_string (take (Z.to_nat p) ds) ++ "." ++ digits_string (drop (Z.to_nat p) ds)
    else
      digits_string ds ++ zeros (Z.to_nat (p - n)) ++ ".0"))%string.

(** ** The string operations of the digit extraction *)

(** [s.replace('.', '')] *)
Fixpoint remove_dots (s : string) : string :=
  match s with
  | EmptyString => EmptyString
  | String c s' =>
      if Ascii.eqb c "." then remove_dots s' else String c (remove_dots s')
  end.

(** [s.lstrip('0')] *)
Fixpoint lstrip_zeros (s : string) : string :=
  match s with
  | EmptyString => EmptyString
  | String c s' => if Ascii.eqb c "0" then lstrip_zeros s' else s
  end.

(** [s[0]] *)
Definition first_char (s : string) : result ascii :=
  match s with
  | EmptyString => Raise IndexError
  | String c _ => Ok c
  end.

(** [int(c)] for a one-character string. *)
Definition int_of_char (c : ascii) : result Z :=
  let k := Z.of_nat (nat_of_ascii c) - 48 in
  if (0 <=? k) && (k <=? 9) then Ok k else Raise ValueError.

(** The lambda applied to the [Amount] column in [run_forensics]:
    [int(str(abs(float(x))).replace('.', '').lstrip('0')[0])
       if abs(float(x)) > 0 else 0]. *)
Definition leading_digit (x : pyfloat) : result Z :=
  if py_gt0 (py_abs x) then
    (let! c := first_char (lstrip_zeros (remove_dots (float_str (py_abs x)))) in
     int_of_char c)
  else Ok 0.

(** The digit extraction as the specification words it: strip, and return
    [0] when nothing is left. *)
Definition spec_leading_digit (x : pyfloat) : result Z :=
  let s := lstrip_zeros (remove_dots (float_str (py_abs x))) in
  match s with
  | EmptyString => Ok 0
  | String c _ => int_of_char c
  end.

Definition f_1234_56 : pyfloat := mk_float false [d1; d2; d3; d4; d5; d6] 4.
Definition f_m987 : pyfloat := mk_float true [d9; d8; d7] 3.
Definition f_0_056 : pyfloat := mk_float false [d5; d6] (-1).
Definition f_zero : pyfloat := mk_float false [d0] 1.

(** ** Rows and frames *)

(** One row of the frame, as a dictionary. [Anomaly_Flag], [first_digit] and
    [Display_Amount] are the keys that annotation adds; the other columns of
    the fetched data are carried along unchanged and play no part. *)
Record Row : Set := mk_row {
  Award_ID : string;
  Recipient_Name : string;
  Amount : pyfloat;
  Anomaly_Flag : option Z;
  first_digit : option Z;
  Display_Amount : option string
}.

Abbreviation DataFrame := (list Row).

Definition set_Anomaly_Flag (r : Row) (v : Z) : Row :=
  mk_row (Award_ID r) (Recipient_Name r) (Amount r) (Some v) (first_digit r) (Display_Amount r).

Definition set_first_digit (r : Row) (v : Z) : Row :=
  mk_row (Award_ID r) (Recipient_Name r) (Amount r) (Anomaly_Flag r) (Some v) (Display_Amount r).

Definition set_Display_Amount (r : Row) (v : string) : Row :=
  mk_row (Award_ID r) (Recipient_Name r) (Amount r) (Anomaly_Flag r) (first_digit r) (Some v).

(** [df['Anomaly_Flag'] = values]: one value per row, [ValueError] when the
    lengths differ. *)
Fixpoint assign_Anomaly_Flag (df : DataFrame) (values : list Z) : result DataFrame :=
  match df, values with
  | [], [] => Ok []
  | r :: df', v :: values' =>
      match assign_Anomaly_Flag df' values' with
      | Ok rest => Ok (set_Anomaly_Flag r v :: rest)
      | Raise e => Raise e
      end
  | _, _ => Raise ValueError
  end.

(** [row[key]] for a key that annotation adds. *)
Definition get_key {A : Type} (v : option A) : result A :=
  match v with
  | Some a => Ok a
  | None => Raise KeyError
  end.

(** [df['Amount'].sum()] in exact arithmetic: the sum of the rationals that
    the cells denote. It is the column sum of [exact_arith] below; a float
    column is summed by [column_sum binary64]. *)
Definition Amount_sum (df : DataFrame) : Q :=
  foldr (fun r acc => (float_value (Amount r) + acc)%Q) 0%Q df.

(** ** [run_forensics] *)

Section Forensics.

(** The generator state that scikit-learn draws from when no seed is fixed. *)
Variable RandomState : Type.

(** [IsolationForest(contamination=c, random_state=s).fit_predict(X)]:
    a label per sample, [-1] for an outlier and [1] for an inlier. *)
Variable IsolationForest_fit_predict :
  Q -> option Z -> RandomState -> list pyfloat -> list Z.

(** ["${:,.2f}".format(x)] *)
Variable format_amount : pyfloat -> string.

Definition run_forensics (g : RandomState) (df : DataFrame) : result DataFrame :=
  match df with
  | [] => Ok df
  | _ =>
      let! df1 := assign_Anomaly_Flag df
              (IsolationForest_fit_predict (6 # 100) (Some 42) g (Amount <$> df)) in
      let! df2 :=
        traverse (fun r => let! d := leading_digit (Amount r) in Ok (set_first_digit r d)) df1 in
      Ok ((fun r => set_Display_Amount r (format_amount (Amount r))) <$> df2)
  end.

(** The row installed when nothing could be fetched. *)
Definition placeholder : Row :=
  mk_row "N/A" "WAITING FOR DATA CONNECTION..." (mk_float false [d0] 1)
         (Some 1) (Some 0) None.

(** [df_master], as the module builds it from what was fetched. *)
Definition make_df_master (g : RandomState) (fetched : DataFrame) : result DataFrame :=
  let! df := run_forensics g fetched in
  Ok (match df with [] => [placeholder] | _ => df end).

End Forensics.

(** ** The tick callback *)

Record LogEntry : Set := mk_log {
  log_time : string;
  log_name : string;
  log_status : string;
  log_color : string
}.

(** The arithmetic of a numeric column: the type of its values, the value
    of a cell of the [Amount] column, the conversion of an integer
    ([loops * total] and [counts / counts.sum()] convert their integers),
    the three operations the callback uses, and [Series.sum()]. *)
Record Arith : Type := mk_arith {
  num : Type;
  num_of_int : Z -> num;
  num_of_amount : pyfloat -> num;
  num_add : num -> num -> num;
  num_mul : num -> num -> num;
  num_div : num -> num -> num;
  column_sum : list num -> num
}.

(** [df['Amount']], as the values of its cells. *)
Definition Amount_column (A : Arith) (df : DataFrame) : list (num A) :=
  (fun r => num_of_amount A (Amount r)) <$> df.

(** The values the callback returns, in the order of its outputs, over the
    numbers [F] of the column arithmetic. The two figures are held by the
    data they plot: the observed digit frequencies, and the background and
    flagged markers as (index, amount) pairs. The capital is the number that
    is then rendered as currency, the anomaly count the number rendered with
    [str]. *)
Record Output (F : Type) : Type := mk_output {
  live_clock : string;
  live_console : list LogEntry;
  capital_ticker : F;
  capital_style : option string;
  anomaly_ticker : nat;
  benford_graph : list (Z * F);
  ml_graph : list (nat * pyfloat) * list (nat * pyfloat);
  audit_table : list Row;
  log_history : list LogEntry;
  anomaly_ledger_store : list Row
}.
Arguments mk_output {F}.
Arguments live_clock {F}.
Arguments live_console {F}.
Arguments capital_ticker {F}.
Arguments capital_style {F}.
Arguments anomaly_ticker {F}.
Arguments benford_graph {F}.
Arguments ml_graph {F}.
Arguments audit_table {F}.
Arguments log_history {F}.
Arguments anomaly_ledger_store {F}.

(** [a // b] *)
Definition py_floordiv (a b : Z) : result Z :=
  if b =? 0 then Raise ZeroDivisionError else Ok (a `div` b).

(** [a % b] *)
Definition py_mod (a b : Z) : result Z :=
  if b =? 0 then Raise ZeroDivisionError else Ok (a `mod` b).

(** [df.iloc[i]] *)
Definition iloc (df : DataFrame) (i : Z) : result Row :=
  let j := if 0 <=? i then i else Z.of_nat (length df) + i in
  if j <? 0 then Raise IndexError
  else match df !! Z.to_nat j with
       | Some r => Ok r
       | None => Raise IndexError
       end.

(** [df.iloc[:k]] *)
Definition iloc_upto (df : DataFrame) (k : Z) : DataFrame :=
  if 0 <=? k then take (Z.to_nat k) df
  else take (Z.to_nat (Z.of_nat (length df) + k)) df.

(** [s.value_counts()]: how often each value occurs. *)
Definition value_counts (s : list Z) : gmap Z nat :=
  foldr (fun v m => <[v := S (default 0%nat (m !! v))]> m) ∅ s.

(** [s.value_counts(normalize=True)] in exact arithmetic: each count over
    the length of [s], as a rational. *)
Definition value_counts_normalize (s : list Z) : gmap Z Q :=
  (fun c => (inject_Z (Z.of_nat c) / inject_Z (Z.of_nat (length s)))%Q) <$> value_counts s.

(** [s.value_counts(normalize=True)] in the column arithmetic: each count,
    converted, over the converted number of values. *)
Definition value_counts_normalize_in (A : Arith) (s : list Z) : gmap Z (num A) :=
  (fun c => num_div A (num_of_int A (Z.of_nat c)) (num_of_int A (Z.of_nat (length s))))
  <$> value_counts s.

(** [m.reindex(index, fill_value=fill)] *)
Definition reindex {F : Type} (m : gmap Z F) (index : list Z) (fill : F) : list (Z * F) :=
  (fun k => (k, default fill (m !! k))) <$> index.

(** The exact rationals: a cell is the rational its decimal expansion
    denotes, and nothing is rounded. *)
Definition exact_arith : Arith :=
  mk_arith Q inject_Z float_value Qplus Qmult Qdiv (foldr Qplus 0%Q).

(** The rows of [df] with their positions. *)
Definition indexed (df : DataFrame) : list (nat * Row) :=
  zip (seq 0 (length df)) df.

Definition marker (p : nat * Row) : nat * pyfloat := (p.1, Amount p.2).

Definition no_data_in (A : Arith) (now_clock : string) : Output (num A) :=
  mk_output (now_clock ++ " UTC") [] (num_of_int A 0) None 0%nat [] ([], []) [] [] [].

(** [update_system(n, current_logs, current_ledger)] over the global
    [df_master], in the column arithmetic [A]. [now_time] and [now_clock] are
    the two readings of the clock, already formatted. *)
Definition update_system_in (A : Arith) (df_master : DataFrame)
    (now_time now_clock : string) (n : Z)
    (current_logs : option (list LogEntry)) (current_ledger : option (list Row))
    : result (Output (num A)) :=
  let current_logs := default [] current_logs in
  let current_ledger := default [] current_ledger in
  let batch_size := Z.of_nat (length df_master) in
  if (batch_size =? 0)
     || match df_master with
        | r0 :: _ => String.eqb (Award_ID r0) "N/A"
        | [] => false
        end
  then Ok (no_data_in A now_clock)
  else
    let! loops := py_floordiv n batch_size in
    let! step := py_mod n batch_size in
    let inf_capital :=
      num_add A
        (num_mul A (num_of_int A loops) (column_sum A (Amount_column A df_master)))
        (column_sum A (Amount_column A (iloc_upto df_master (step + 1)))) in
    let! row := iloc df_master step in
    let! flag := get_key (Anomaly_Flag row) in
    let is_anomaly := flag =? -1 in
    let status_text := if is_anomaly then "FLAGGED" else "PASSED" in
    let status_color := if is_anomaly then "#ff4d4d" else "#00f5d4" in
    let existing_ids : gset string := list_to_set (Award_ID <$> current_ledger) in
    let seen := bool_decide (Award_ID row ∈ existing_ids) in
    let status_text := if is_anomaly && seen then "MONITORED" else status_text in
    let status_color := if is_anomaly && seen then "#FFD700" else status_color in
    let new_log :=
      mk_log now_time (substring 0 35 (Recipient_Name row)) status_text status_color in
    let updated_logs := current_logs ++ [new_log] in
    let updated_logs :=
      if (1000 <? length updated_logs)%nat then tail updated_logs else updated_logs in
    let updated_ledger :=
      if is_anomaly && negb seen then current_ledger ++ [row] else current_ledger in
    let unique_anomaly_count := length updated_ledger in
    let df_vis := iloc_upto df_master (step + 1) in
    let! digits := traverse (fun r => get_key (first_digit r)) df_vis in
    let obs := reindex (value_counts_normalize_in A digits) (seqZ 1 9) (num_of_int A 0) in
    let background_data :=
      if 0 <? loops then indexed df_master else indexed (iloc_upto df_master (step + 1)) in
    let ledger_ids := Award_ID <$> updated_ledger in
    let anomalies_in_ledger :=
      filter (fun p => Award_ID p.2 ∈ ledger_ids) (indexed df_master) in
    Ok (mk_output (now_clock ++ " UTC") updated_logs inf_capital (Some status_color)
          unique_anomaly_count obs
          (marker <$> background_data, marker <$> anomalies_in_ledger)
          updated_ledger updated_logs updated_ledger).

(** The callback and its no-data outputs over the exact rationals. *)
Definition no_data (now_clock : string) : Output Q := no_data_in exact_arith now_clock.

Definition update_system (df_master : DataFrame) (now_time now_clock : string)
    (n : Z) (current_logs : option (list LogEntry)) (current_ledger : option (list Row))
    : result (Output Q) :=
  update_system_in exact_arith df_master now_time now_clock n current_logs current_ledger.

(** ** binary64, the arithmetic of a float column *)

(** An integer as a float, rounded to nearest, ties to even. *)
Definition float64_of_Z (z : Z) : float :=
  SF2Prim (binary_normalize 53 1024 z 0 false).

(** The float nearest to [p / q], for [0 <= p] and [0 < q]: the quotient is
    taken with at least 59 bits and a sticky last bit, and then rounded to
    nearest, ties to even. *)
Definition float64_of_ratio (p q : Z) : float :=
  if p =? 0 then 0%float
  else
    let s := Z.max 0 (60 + Z.log2 q - Z.log2 p) in
    let scaled := p * 2 ^ s in
    let m := 2 * (scaled `div` q) + (if scaled `mod` q =? 0 then 0 else 1) in
    SF2Prim (binary_normalize 53 1024 m (- s - 1) false).

(** [float(x)] for the number that prints as [x]. *)
Definition float64_of_decimal (x : pyfloat) : float :=
  let k := f_decpt x - Z.of_nat (length (f_digits x)) in
  let v :=
    if 0 <=? k then float64_of_ratio (digits_Z (f_digits x) * 10 ^ k) 1
    else float64_of_ratio (digits_Z (f_digits x)) (10 ^ (- k)) in
  if f_sign x then (- v)%float else v.

(** The sum of a column of one or two values. numpy starts from the first
    value, or from a zero, and adds the rest; on so short a column every
    such order gives the same float, the one computed here from left to
    right. Longer columns are added in blocks by numpy, and this instance is
    evaluated on one- and two-row batches only. *)
Definition float64_sum (l : list float) : float :=
  fold_left PrimFloat.add l 0%float.

Definition binary64 : Arith :=
  mk_arith float float64_of_Z float64_of_decimal
    PrimFloat.add PrimFloat.mul PrimFloat.div float64_sum.

(** ** The session: the two client-side stores and the timer *)

Record Session : Type := mk_session {
  s_logs : list LogEntry;
  s_ledger : list Row
}.

(** Both stores start as [[]]. *)
Definition session0 : Session := mk_session [] [].

(** One firing of the timer: the callback runs on the stored state and its
    last two outputs are stored back; when it raises, nothing is updated. *)
Definition tick (df_master : DataFrame) (now_time now_clock : string) (n : Z)
    (s : Session) : Session :=
  match update_system df_master now_time now_clock n (Some (s_logs s)) (Some (s_ledger s)) with
  | Ok out => mk_session (log_history out) (anomaly_ledger_store out)
  | Raise _ => s
  end.

(** The sessions that some sequence of ticks produces from the initial
    stores, whatever the tick numbers and clock readings. *)
Inductive reachable (df_master : DataFrame) : Session -> Prop :=
  | reachable_start : reachable df_master session0
  | reachable_tick (s : Session) (now_time now_clock : string) (n : Z) :
      reachable df_master s ->
      reachable df_master (tick df_master now_time now_clock n s).

(** ** Auxiliary definitions used in the statements *)

(** The value of the first significant digit of a float. *)
Definition head_digit (x : pyfloat) : Z := digit_val (hd d0 (f_digits x)).

(** A row after annotation with the label [v]. *)
Definition annotate_row (format_amount : pyfloat -> string) (r : Row) (v : Z) : Row :=
  set_Display_Amount
    (set_first_digit (set_Anomaly_Flag r v) (head_digit (Amount r)))
    (format_amount (Amount r)).

(** A frame is ready for the callback when it has both annotation columns. *)
Definition annotated (df : DataFrame) : Prop :=
  Forall (fun r => is_Some (Anomaly_Flag r) /\ is_Some (first_digit r)) df.

(** A stand-in detector for concrete runs: it ignores the generator state
    and labels as outliers the amounts of at least one thousand. *)
Definition threshold_detector (c : Q) (s : option Z) (g : unit) (X : list pyfloat) : list Z :=
  (fun x => if Qle_bool 1000 (float_value x) then -1 else 1) <$> X.

Definition mk_raw (id name : string) (a : pyfloat) : Row :=
  mk_row id name a None None None.

Definition raw_demo : DataFrame :=
  [ mk_raw "W91-A" "alpha" (mk_float false [d1; d2] 2);
    mk_raw "W91-B" "beta" (mk_float false [d0] 1);
    mk_raw "W91-C" "gamma" (mk_float false [d9; d5] 4) ].

(** A frame that the callback plays back: it has a first row and that row
    is not the placeholder. *)
Definition active (df : DataFrame) : Prop :=
  match df with
  | [] => False
  | r0 :: _ => Award_ID r0 <> "N/A"
  end.

(** The status the feed reports for a row with label [flag] whose identifier
    is, or is not, already in the ledger. *)
Definition status_of (flag : Z) (seen : bool) : string :=
  if flag =? -1 then (if seen then "MONITORED" else "FLAGGED") else "PASSED".

Definition color_of (flag : Z) (seen : bool) : string :=
  if flag =? -1 then (if seen then "#FFD700" else "#ff4d4d") else "#00f5d4".

(** The feed after one more entry, capped at 1000 entries. *)
Definition push_log (logs : list LogEntry) (e : LogEntry) : list LogEntry :=
  let l := logs ++ [e] in
  if (1000 <? length l)%nat then tail l else l.

(** The amount at a position of the batch, as the rational it denotes. *)
Definition amount_at (df : DataFrame) (i : nat) : Q :=
  match df !! i with
  | Some r => float_value (Amount r)
  | None => 0%Q
  end.

(** The cells of the [Amount] column at the indices 0, 1, ..., k, looked up
    one by one. *)
Definition amounts_through (A : Arith) (df : DataFrame) (k : nat) : list (num A) :=
  omap (fun i => (fun r => num_of_amount A (Amount r)) <$> df !! i) (seq 0 (S k)).

(** The capital the callback reports at tick [n], in exact arithmetic. *)
Definition cumulative (df : DataFrame) (n : Z) : Q :=
  let size := Z.of_nat (length df) in
  (inject_Z (n `div` size) * Amount_sum df
   + Amount_sum (take (S (Z.to_nat (n `mod` size))) df))%Q.

(** ** Sample batches *)

Definition mk_annotated (id name : string) (a : pyfloat) (flag digit : Z) : Row :=
  mk_row id name a (Some flag) (Some digit) None.

(** Amounts 12.0, 0.0 and 950.0; the last one is flagged. *)
Definition batch3 : DataFrame :=
  [ mk_annotated "W91-A" "alpha" (mk_float false [d1; d2] 2) 1 1;
    mk_annotated "W91-B" "beta" (mk_float false [d0] 1) 1 0;
    mk_annotated "W91-C" "gamma" (mk_float false [d9; d5] 3) (-1) 9 ].

(** Ten rows with the amounts 1.0, 2.0, ..., 9.0 and 10.0. *)
Definition batch10 : DataFrame :=
  [ mk_annotated "W91-0" "r0" (mk_float false [d1] 1) 1 1;
    mk_annotated "W91-1" "r1" (mk_float false [d2] 1) 1 2;
    mk_annotated "W91-2" "r2" (mk_float false [d3] 1) 1 3;
    mk_annotated "W91-3" "r3" (mk_float false [d4] 1) 1 4;
    mk_annotated "W91-4" "r4" (mk_float false [d5] 1) 1 5;
    mk_annotated "W91-5" "r5" (mk_float false [d6] 1) 1 6;
    mk_annotated "W91-6" "r6" (mk_float false [d7] 1) 1 7;
    mk_annotated "W91-7" "r7" (mk_float false [d8] 1) 1 8;
    mk_annotated "W91-8" "r8" (mk_float false [d9] 1) 1 9;
    mk_annotated "W91-9" "r9" (mk_float false [d1] 2) (-1) 1 ].

(** Amounts 12.0 and 0.0, with the leading digits 1 and 0. *)
Definition batch_zero_amount : DataFrame :=
  [ mk_annotated "W91-A" "alpha" (mk_float false [d1; d2] 2) 1 1;
    mk_annotated "W91-B" "beta" (mk_float false [d0] 1) 1 0 ].

(** Amounts 0.0 and 0.3. *)
Definition batch_03 : DataFrame :=
  [ mk_annotated "W91-Z" "zero" (mk_float false [d0] 1) 1 0;
    mk_annotated "W91-T" "tenths" (mk_float false [d3] 0) 1 3 ].

(** Amounts 1e16 and 1.0. *)
Definition batch_1e16 : DataFrame :=
  [ mk_annotated "W91-L" "large" (mk_float false [d1] 17) 1 1;
    mk_annotated "W91-U" "unit" (mk_float false [d1] 1) 1 1 ].

(** A payment of 5.0 followed by a refund of -8.0. *)
Definition batch_refund : DataFrame :=
  [ mk_annotated "W91-P" "payment" (mk_float false [d5] 1) 1 5;
    mk_annotated "W91-R" "refund" (mk_float true [d8] 1) 1 8 ].

(** ** [fetch_real_us_data] *)

(** [c.upper()] on ASCII text, which a hex digest is. *)
Definition upper_char (c : ascii) : ascii :=
  let k := nat_of_ascii c in
  if ((97 <=? k) && (k <=? 122))%nat then ascii_of_nat (k - 32) else c.

(** [s.upper()] *)
Fixpoint upper (s : string) : string :=
  match s with
  | EmptyString => EmptyString
  | String c s' => String (upper_char c) (upper s')
  end.

(** One element of [response.json()['results']]. The identifier may be
    missing or null; the name is a string and the amount a finite number. *)
Record ApiRecord : Set := mk_api {
  api_Award_ID : option string;
  api_Recipient_Name : string;
  api_Award_Amount : pyfloat
}.

(** What [requests.post] returned: the status code, and the ['results'] list
    of the body when the body is JSON and has one. *)
Record Response : Set := mk_response {
  status_code : Z;
  json_results : option (list ApiRecord)
}.

Section Fetch.

(** [hashlib.md5(s.encode()).hexdigest()] *)
Variable md5_hexdigest : string -> string.

(** [make_long_id]: [f"W91-{hex_hash[:10]}-{short_id}"] with the digest in
    upper case. *)
Definition make_long_id (short_id : string) : string :=
  let hex_hash := upper (md5_hexdigest short_id) in
  ("W91-" ++ substring 0 10 hex_hash ++ "-" ++ short_id)%string.

(** One fetched row: the long identifier, and [Award Amount] renamed
    to [Amount]. Hashing a missing identifier raises. *)
Definition fetched_row (rec : ApiRecord) : option Row :=
  match api_Award_ID rec with
  | Some short_id =>
      Some (mk_row (make_long_id short_id) (api_Recipient_Name rec)
              (api_Award_Amount rec) None None None)
  | None => None
  end.

(** [fetch_real_us_data()], given the outcome of the request ([None] when
    [requests.post] raised). Every exception inside the [try] ends in the
    empty frame, and so does a status other than 200. *)
Definition fetch_real_us_data (post : option Response) : DataFrame :=
  match post with
  | None => []
  | Some response =>
      if status_code response =? 200 then
        match json_results response with
        | None => []
        | Some results =>
            match mapM fetched_row results with
            | Some df => df
            | None => []
            end
        end
      else []
  end.

End Fetch.

(** A stand-in digest for concrete runs: 32 hex characters, the same for
    every input. *)
Definition constant_digest (s : string) : string :=
  "9e107d9d372bb6826bd81d3542a419d6".

Definition results_demo : list ApiRecord :=
  [ mk_api (Some "FA8620") "alpha" (mk_float false [d1; d2] 2);
    mk_api (Some "N00019") "beta" (mk_float false [d0] 1);
    mk_api (Some "W58RGZ") "gamma" (mk_float false [d9; d5] 4) ].

Definition response_demo : Response := mk_response 200 (Some results_demo).

(** ** Playing a sequence of ticks *)

(** The session after the timer has fired with the tick numbers [ticks], one
    after the other; [clock n] is the time shown at tick [n]. *)
Definition play (df_master : DataFrame) (clock : Z -> string) (ticks : list Z)
    (s : Session) : Session :=
  foldl (fun s n => tick df_master (clock n) (clock n) n s) s ticks.

(** The rows that carry the outlier label. *)
Definition flagged_rows (df : DataFrame) : DataFrame :=
  filter (fun r => Anomaly_Flag r = Some (-1)) df.

(** The three status and colour pairs of the feed. *)
Definition feed_style (e : LogEntry) : Prop :=
  (log_status e = "PASSED" /\ log_color e = "#00f5d4") \/
  (log_status e = "FLAGGED" /\ log_color e = "#ff4d4d") \/
  (log_status e = "MONITORED" /\ log_color e = "#FFD700").

(** The row under the cursor at tick [n]. *)
Definition cursor_row (df : DataFrame) (n : Z) : option Row :=
  df !! Z.to_nat (n `mod` Z.of_nat (length df)).

(** The time and the name that the feed shows for tick [n]. *)
Definition feed_line (df : DataFrame) (clock : Z -> string) (n : Z) : string * string :=
  (clock n, substring 0 35 (from_option Recipient_Name "" (cursor_row df n))).

(* ------------------------------------------------------------------ *)
(** * Properties *)

(** ** The bind of results *)

Lemma bind_Ok {A B : Type} (m : result A) (f : A -> result B) (b : B) :
  bind m f = Ok b -> exists a, m = Ok a /\ f a = Ok b.
Proof. destruct m as [a|e]; simpl; [eauto | discriminate]. Qed.

(** ** Digit extraction *)

Lemma digit_char_not_dot (d : digit) : Ascii.eqb (digit_char d) "." = false.
Proof. by destruct d. Qed.

Lemma digit_char_zero (d : digit) : Ascii.eqb (digit_char d) "0" = true <-> d = d0.
Proof. destruct d; simpl; split; congruence. Qed.

Lemma int_of_digit_char (d : digit) : int_of_char (digit_char d) = Ok (digit_val d).
Proof. by destruct d. Qed.

Lemma digit_val_range (d : digit) : 0 <= digit_val d <= 9.
Proof. destruct d; simpl; lia. Qed.

Lemma digit_val_zero (d : digit) : digit_val d = 0 <-> d = d0.
Proof. destruct d; simpl; split; (congruence || lia). Qed.

Lemma append_String (c : ascii) (s t : string) :
  (String c s ++ t)%string = String c (s ++ t)%string.
Proof. reflexivity. Qed.

Lemma remove_dots_app (s t : string) :
  remove_dots (s ++ t) = (remove_dots s ++ remove_dots t)%string.
Proof.
  induction s as [|c s IH]; [done|].
  rewrite append_String. simpl. destruct (Ascii.eqb c "."); by rewrite IH.
Qed.

Lemma remove_dots_digits (ds : list digit) :
  remove_dots (digits_string ds) = digits_string ds.
Proof.
  induction ds as [|d ds IH]; simpl; [done|].
  by rewrite digit_char_not_dot, IH.
Qed.

Lemma remove_dots_zeros (n : nat) : remove_dots (zeros n) = zeros n.
Proof. induction n as [|n IH]; simpl; [done | by rewrite IH]. Qed.

Lemma lstrip_zeros_app (n : nat) (s : string) :
  lstrip_zeros (zeros n ++ s) = lstrip_zeros s.
Proof. induction n as [|n IH]; [done|]. cbn [zeros]. by rewrite append_String. Qed.

Lemma lstrip_zeros_digit (d : digit) (s : string) :
  d <> d0 -> lstrip_zeros (String (digit_char d) s) = String (digit_char d) s.
Proof.
  intros Hd. simpl. destruct (Ascii.eqb (digit_char d) "0") eqn:E; [|done].
  by apply digit_char_zero in E.
Qed.

(** The stripped text of a float with a non-zero first digit starts with
    that digit, in each of the four layouts of [float_str]. *)
Lemma stripped_head (d : digit) (rest : list digit) (p : Z) :
  d <> d0 ->
  exists s, lstrip_zeros (remove_dots (float_str (mk_float false (d :: rest) p)))
            = String (digit_char d) s.
Proof.
  intros Hd. unfold float_str. cbn [f_sign f_digits f_decpt].
  change (("" ++ ?t)%string) with t.
  destruct ((p <=? -4) || (16 <? p)) eqn:Hexp.
  - rewrite append_String. cbn [remove_dots]. rewrite digit_char_not_dot.
    rewrite lstrip_zeros_digit by done. eauto.
  - destruct (p <=? 0) eqn:Hp0.
    + change ("0." ++ ?t)%string with (String "0" (String "." t)).
      cbn [remove_dots Ascii.eqb Bool.eqb]. cbn [lstrip_zeros Ascii.eqb Bool.eqb].
      rewrite remove_dots_app, remove_dots_zeros, lstrip_zeros_app.
      rewrite remove_dots_digits. cbn [digits_string].
      rewrite lstrip_zeros_digit by done. eauto.
    + apply Z.leb_gt in Hp0.
      destruct (Z.to_nat p) as [|k] eqn:Hk; [lia|].
      destruct (p <? Z.of_nat (length (d :: rest))).
      * cbn [take digits_string]. rewrite append_String. cbn [remove_dots].
        rewrite digit_char_not_dot, lstrip_zeros_digit by done. eauto.
      * cbn [digits_string]. rewrite append_String. cbn [remove_dots].
        rewrite digit_char_not_dot, lstrip_zeros_digit by done. eauto.
Qed.

Lemma digits_Z_acc (ds : list digit) (acc : Z) :
  0 <= acc -> acc <= fold_left (fun a d => 10 * a + digit_val d) ds acc.
Proof.
  revert acc. induction ds as [|d ds IH]; intros acc Hacc; simpl; [lia|].
  pose proof (digit_val_range d).
  etrans; [|apply IH]; lia.
Qed.

Lemma digits_Z_pos (d : digit) (rest : list digit) :
  d <> d0 -> 0 < digits_Z (d :: rest).
Proof.
  intros Hd. unfold digits_Z. cbn [fold_left].
  pose proof (digit_val_range d).
  assert (digit_val d <> 0) by (by intros E%digit_val_zero).
  pose proof (digits_Z_acc rest (10 * 0 + digit_val d)). lia.
Qed.

Lemma float_value_abs_pos (d : digit) (rest : list digit) (p : Z) :
  d <> d0 -> (0 < float_value (mk_float false (d :: rest) p))%Q.
Proof.
  intros Hd. unfold float_value. cbn [f_sign f_digits f_decpt].
  apply Qmult_lt_0_compat; [|by apply Qpower_0_lt].
  rewrite Qmult_1_l. change 0%Q with (inject_Z 0). rewrite <- Zlt_Qlt.
  by apply digits_Z_pos.
Qed.

Lemma float_value_abs (x : pyfloat) :
  (float_value (py_abs x) == Qabs (float_value x))%Q.
Proof.
  unfold float_value, py_abs. cbn [f_sign f_digits f_decpt].
  set (N := inject_Z (digits_Z (f_digits x))).
  set (P := (10 ^ _)%Q).
  assert (HN : (0 <= N)%Q).
  { unfold N. change 0%Q with (inject_Z 0). rewrite <- Zle_Qle.
    apply (digits_Z_acc (f_digits x) 0). lia. }
  assert (HP : (0 <= P)%Q) by (apply Qlt_le_weak, Qpower_0_lt; done).
  rewrite !Qabs_Qmult, (Qabs_pos N), (Qabs_pos P) by done.
  destruct (f_sign x); reflexivity.
Qed.

(** A well-formed float is zero, or starts with a non-zero digit. *)
Lemma float_wf_cases (x : pyfloat) :
  float_wf x = true ->
  (f_digits x = [d0] /\ f_decpt x = 1) \/
  (exists d rest, f_digits x = d :: rest /\ d <> d0).
Proof.
  unfold float_wf. destruct (f_digits x) as [|d rest]; [done|].
  destruct d; try (intros _; right; eexists _, _; split; [done|discriminate]).
  destruct rest; [|done]. intros H%Z.eqb_eq. by left.
Qed.

(** What the lambda returns on a well-formed float: the value of its first
    digit. *)
Lemma leading_digit_head (x : pyfloat) :
  float_wf x = true ->
  leading_digit x = Ok (digit_val (hd d0 (f_digits x))) /\
  spec_leading_digit x = Ok (digit_val (hd d0 (f_digits x))).
Proof.
  intros [[Hds Hp]|(d & rest & Hds & Hd)]%float_wf_cases.
  - destruct x as [sg ds p]; simpl in *; subst. by vm_compute.
  - unfold leading_digit, spec_leading_digit, py_gt0.
    destruct (stripped_head d rest (f_decpt x) Hd) as [s Hs].
    assert (Habs : py_abs x = mk_float false (d :: rest) (f_decpt x))
      by (unfold py_abs; by rewrite Hds).
    rewrite Habs, Hs.
    pose proof (float_value_abs_pos d rest (f_decpt x) Hd) as Hpos.
    apply Qgt_alt in Hpos. rewrite Hpos. simpl.
    rewrite Hds. simpl. by rewrite int_of_digit_char.
Qed.

(** C1. On every finite amount the digit assigned at annotation is the one
    the specification's recipe gives (absolute value, decimal text, point
    removed, leading zeros stripped, [0] when nothing is left and the value
    of the first character otherwise); it lies in 0..9 and is 0 exactly when
    the magnitude of the amount is zero; and the amounts 0, 1234.56, -987.0
    and 0.056 get the digits 0, 1, 9 and 5. *)
Theorem leading_digit_correct (x : pyfloat) :
  float_wf x = true ->
  leading_digit x = spec_leading_digit x /\
  (exists d, leading_digit x = Ok d /\ 0 <= d <= 9 /\
             (d = 0 <-> (Qabs (float_value x) == 0)%Q)) /\
  (float_str f_zero = "0.0" /\ leading_digit f_zero = Ok 0) /\
  (float_str f_1234_56 = "1234.56" /\ leading_digit f_1234_56 = Ok 1) /\
  (float_str f_m987 = "-987.0" /\ leading_digit f_m987 = Ok 9) /\
  (float_str f_0_056 = "0.056" /\ leading_digit f_0_056 = Ok 5).
Proof.
  intros Hwf.
  destruct (leading_digit_head x Hwf) as [Hcode Hspec].
  split; [by rewrite Hcode, Hspec|].
  split; [|by vm_compute].
  exists (digit_val (hd d0 (f_digits x))).
  split; [done|]. split; [apply digit_val_range|].
  rewrite <- float_value_abs.
  destruct (float_wf_cases x Hwf) as [[Hds Hp]|(d & rest & Hds & Hd)].
  - unfold float_value, py_abs. cbn [f_sign f_digits f_decpt].
    rewrite Hds, Hp. by vm_compute.
  - assert (Habs : py_abs x = mk_float false (d :: rest) (f_decpt x))
      by (unfold py_abs; by rewrite Hds).
    rewrite Habs, Hds. cbn [hd].
    pose proof (float_value_abs_pos d rest (f_decpt x) Hd) as Hpos.
    split.
    + by intros E%digit_val_zero.
    + intros E. rewrite E in Hpos. by apply Qlt_irrefl in Hpos.
Qed.

Lemma leading_digit_correct_witness :
  float_wf f_0_056 = true /\
  leading_digit f_0_056 = spec_leading_digit f_0_056.
Proof.
  split; [reflexivity|].
  apply (leading_digit_correct f_0_056). reflexivity.
Defined.

(** ** Annotation *)

Lemma traverse_Ok {A B : Type} (f : A -> result B) (g : A -> B) (l : list A) :
  Forall (fun x => f x = Ok (g x)) l -> traverse f l = Ok (g <$> l).
Proof.
  induction 1 as [|x l Hx _ IH]; simpl; [done|].
  by rewrite Hx, IH.
Qed.

Lemma assign_Anomaly_Flag_Ok (df : DataFrame) (values : list Z) :
  length values = length df ->
  assign_Anomaly_Flag df values = Ok (zip_with set_Anomaly_Flag df values).
Proof.
  revert values. induction df as [|r df IH]; intros [|v values] Hlen;
    simpl in *; try done.
  rewrite IH by lia. done.
Qed.

Lemma first_digit_step_Ok (r : Row) :
  float_wf (Amount r) = true ->
  (let! d := leading_digit (Amount r) in Ok (set_first_digit r d))
  = Ok (set_first_digit r (head_digit (Amount r))).
Proof. intros Hr. by destruct (leading_digit_head (Amount r) Hr) as [-> _]. Qed.

Lemma Forall_zip_set_Anomaly_Flag (P : pyfloat -> Prop) (df : DataFrame) (vs : list Z) :
  Forall (fun r => P (Amount r)) df ->
  Forall (fun r => P (Amount r)) (zip_with set_Anomaly_Flag df vs).
Proof.
  intros H. revert vs. induction H as [|r df Hr _ IH]; intros [|v vs];
    cbn [zip_with]; constructor; [done | apply IH].
Qed.

Lemma Forall_Amount (P : pyfloat -> Prop) (df : DataFrame) :
  Forall (fun r => P (Amount r)) df <-> Forall P (Amount <$> df).
Proof.
  induction df as [|r df IH]; simpl; [split; constructor|].
  rewrite !Forall_cons. by rewrite IH.
Qed.

Section ForensicsProperties.

Context {RandomState : Type}.
Variable fit_predict : Q -> option Z -> RandomState -> list pyfloat -> list Z.
Variable format_amount : pyfloat -> string.

(** scikit-learn's contract: one label per sample, and with a fixed
    [random_state] no dependence on the ambient generator. *)
Hypothesis fit_predict_length :
  forall c s g X, length (fit_predict c s g X) = length X.
Hypothesis fit_predict_seeded :
  forall c s g g' X, fit_predict c (Some s) g X = fit_predict c (Some s) g' X.

Lemma run_forensics_Ok (g : RandomState) (df : DataFrame) :
  Forall (fun r => float_wf (Amount r) = true) df ->
  run_forensics RandomState fit_predict format_amount g df
  = Ok (zip_with (annotate_row format_amount) df
          (fit_predict (6 # 100) (Some 42) g (Amount <$> df))).
Proof.
  intros Hwf. unfold run_forensics.
  destruct df as [|r0 df0] eqn:Edf; [done|]. rewrite <- Edf in *. clear Edf r0 df0.
  set (labels := fit_predict _ _ _ _).
  assert (Hlen : length labels = length df)
    by (unfold labels; by rewrite fit_predict_length, length_fmap).
  rewrite assign_Anomaly_Flag_Ok by done. cbn [bind].
  rewrite (traverse_Ok _ (fun r => set_first_digit r (head_digit (Amount r)))).
  - cbn [bind]. f_equal. clearbody labels. clear Hwf.
    revert labels Hlen. induction df as [|r df IH]; intros [|v vs] Hlen;
      simpl in *; try done.
    f_equal. apply IH. lia.
  - eapply Forall_impl;
      [apply (Forall_zip_set_Anomaly_Flag (fun a => float_wf a = true)), Hwf|].
    intros r Hr. by apply first_digit_step_Ok.
Qed.

Lemma annotate_row_again (r : Row) (v : Z) :
  annotate_row format_amount (annotate_row format_amount r v) v
  = annotate_row format_amount r v.
Proof. by destruct r. Qed.

Lemma Amount_zip_annotate (df : DataFrame) (vs : list Z) :
  length vs = length df ->
  Amount <$> zip_with (annotate_row format_amount) df vs = Amount <$> df.
Proof.
  revert vs. induction df as [|r df IH]; intros [|v vs] Hlen; simpl in *; try done.
  f_equal. apply IH. lia.
Qed.

Lemma zip_annotate_again (df : DataFrame) (vs : list Z) :
  zip_with (annotate_row format_amount) (zip_with (annotate_row format_amount) df vs) vs
  = zip_with (annotate_row format_amount) df vs.
Proof.
  revert vs. induction df as [|r df IH]; intros [|v vs]; simpl; try done.
  by rewrite annotate_row_again, IH.
Qed.

(** C2. On a non-empty batch of finite amounts [run_forensics] returns a
    frame with one row per record, each keeping its identity, name and
    amount and carrying one [first_digit] in 0..9 (the leading digit of its
    amount) and one [Anomaly_Flag]; the result does not depend on the
    state of the random generator (the seed is fixed), and annotating the
    annotated frame again returns it unchanged. *)
Theorem run_forensics_annotates (g : RandomState) (df : DataFrame) :
  df <> [] ->
  Forall (fun r => float_wf (Amount r) = true) df ->
  exists out,
    run_forensics RandomState fit_predict format_amount g df = Ok out /\
    Forall2 (fun r r' =>
               Award_ID r' = Award_ID r /\
               Recipient_Name r' = Recipient_Name r /\
               Amount r' = Amount r /\
               (exists d, first_digit r' = Some d /\ 0 <= d <= 9 /\
                          leading_digit (Amount r) = Ok d) /\
               (exists flag, Anomaly_Flag r' = Some flag)) df out /\
    (forall g', run_forensics RandomState fit_predict format_amount g' df = Ok out) /\
    (forall g', run_forensics RandomState fit_predict format_amount g' out = Ok out).
Proof.
  intros _ Hwf.
  set (labels := fit_predict (6 # 100) (Some 42) g (Amount <$> df)).
  assert (Hlen : length labels = length df)
    by (unfold labels; by rewrite fit_predict_length, length_fmap).
  exists (zip_with (annotate_row format_amount) df labels).
  split; [by apply run_forensics_Ok|].
  split; [|split].
  - clearbody labels. revert labels Hlen.
    induction Hwf as [|r df Hr _ IH]; intros [|v vs] Hlen; simpl in *;
      try done; constructor; [|apply IH; lia].
    repeat split; try done; [|by eexists].
    exists (head_digit (Amount r)). split; [done|].
    split; [apply digit_val_range|].
    by destruct (leading_digit_head (Amount r) Hr) as [-> _].
  - intros g'. rewrite run_forensics_Ok by done.
    by rewrite (fit_predict_seeded _ _ g' g).
  - intros g'. rewrite run_forensics_Ok.
    + rewrite Amount_zip_annotate by done.
      rewrite (fit_predict_seeded _ _ g' g). apply f_equal, zip_annotate_again.
    + apply (Forall_Amount (fun a => float_wf a = true)).
      rewrite Amount_zip_annotate by done.
      by apply (Forall_Amount (fun a => float_wf a = true)).
Qed.

End ForensicsProperties.

Lemma run_forensics_annotates_witness :
  exists out,
    run_forensics unit threshold_detector float_str tt raw_demo = Ok out /\
    length out = length raw_demo.
Proof.
  destruct (run_forensics_annotates threshold_detector float_str
              ltac:(intros; apply length_fmap) ltac:(reflexivity) tt raw_demo)
    as (out & Hrun & Hrows & _).
  - discriminate.
  - repeat constructor.
  - exists out. split; [exact Hrun|]. symmetry. exact (Forall2_length _ _ _ Hrows).
Defined.

(** ** The callback: which branch runs, and what it returns *)

Lemma guard_active (df : DataFrame) :
  active df ->
  (Z.of_nat (length df) =? 0)
  || match df with
     | r0 :: _ => String.eqb (Award_ID r0) "N/A"
     | [] => false
     end = false.
Proof.
  destruct df as [|r0 rest]; [done|]. intros Hact%String.eqb_neq.
  cbn [active length]. rewrite Hact. by rewrite orb_false_r, Z.eqb_neq.
Qed.

Lemma guard_inactive (df : DataFrame) :
  ~ active df ->
  (Z.of_nat (length df) =? 0)
  || match df with
     | r0 :: _ => String.eqb (Award_ID r0) "N/A"
     | [] => false
     end = true.
Proof.
  destruct df as [|r0 rest]; [done|]. cbn [active]. intros Hact.
  destruct (String.eqb_spec (Award_ID r0) "N/A"); [by rewrite orb_true_r | done].
Qed.

Lemma active_length (df : DataFrame) : active df -> 0 < Z.of_nat (length df).
Proof. destruct df; [done | simpl; lia]. Qed.

Lemma update_system_in_inactive (A : Arith) (df : DataFrame)
    (now_time now_clock : string) (n : Z)
    (logs : option (list LogEntry)) (ledger : option (list Row)) :
  ~ active df ->
  update_system_in A df now_time now_clock n logs ledger = Ok (no_data_in A now_clock).
Proof. intros H. unfold update_system_in. by rewrite guard_inactive. Qed.

Lemma update_system_inactive (df : DataFrame) (now_time now_clock : string) (n : Z)
    (logs : option (list LogEntry)) (ledger : option (list Row)) :
  ~ active df ->
  update_system df now_time now_clock n logs ledger = Ok (no_data now_clock).
Proof.
  intros H. unfold update_system, no_data.
  exact (update_system_in_inactive exact_arith df now_time now_clock n logs ledger H).
Qed.

Lemma seen_list (id : string) (ledger : list Row) :
  bool_decide (id ∈ (list_to_set (Award_ID <$> ledger) : gset string))
  = bool_decide (id ∈ Award_ID <$> ledger).
Proof. apply bool_decide_ext, elem_of_list_to_set. Qed.

Lemma iloc_upto_succ (df : DataFrame) (k : Z) :
  0 <= k -> iloc_upto df (k + 1) = take (S (Z.to_nat k)) df.
Proof.
  intros Hk. unfold iloc_upto. rewrite (proj2 (Z.leb_le 0 (k + 1))) by lia.
  f_equal. lia.
Qed.

Lemma iloc_lookup (df : DataFrame) (i : Z) (r : Row) :
  0 <= i -> iloc df i = Ok r <-> df !! Z.to_nat i = Some r.
Proof.
  intros Hi. unfold iloc. rewrite (proj2 (Z.leb_le 0 i)) by lia.
  rewrite (proj2 (Z.ltb_ge i 0)) by lia.
  destruct (df !! Z.to_nat i); split; congruence.
Qed.

(** What an active tick returns, field by field, in any arithmetic. *)
Lemma update_system_in_inv (A : Arith) (df : DataFrame) (now_time now_clock : string)
    (n : Z) (logs : option (list LogEntry)) (ledger : option (list Row))
    (out : Output (num A)) :
  active df ->
  update_system_in A df now_time now_clock n logs ledger = Ok out ->
  let size := Z.of_nat (length df) in
  let step := n `mod` size in
  exists row flag digits,
    df !! Z.to_nat step = Some row /\
    Anomaly_Flag row = Some flag /\
    traverse (fun r => get_key (first_digit r)) (take (S (Z.to_nat step)) df) = Ok digits /\
    let seen := bool_decide (Award_ID row ∈ Award_ID <$> default [] ledger) in
    live_clock out = (now_clock ++ " UTC")%string /\
    capital_ticker out
      = num_add A
          (num_mul A (num_of_int A (n `div` size)) (column_sum A (Amount_column A df)))
          (column_sum A (Amount_column A (take (S (Z.to_nat step)) df))) /\
    log_history out
      = push_log (default [] logs)
          (mk_log now_time (substring 0 35 (Recipient_Name row))
             (status_of flag seen) (color_of flag seen)) /\
    live_console out = log_history out /\
    capital_style out = Some (color_of flag seen) /\
    anomaly_ledger_store out
      = (if (flag =? -1) && negb seen then default [] ledger ++ [row]
         else default [] ledger) /\
    audit_table out = anomaly_ledger_store out /\
    anomaly_ticker out = length (anomaly_ledger_store out) /\
    benford_graph out
      = reindex (value_counts_normalize_in A digits) (seqZ 1 9) (num_of_int A 0) /\
    ml_graph out
      = (marker <$> (if 0 <? n `div` size then indexed df
                     else indexed (take (S (Z.to_nat step)) df)),
         marker <$> filter (fun p => Award_ID p.2 ∈ Award_ID <$> anomaly_ledger_store out)
                      (indexed df)).
Proof.
  intros Hact Hrun size step.
  pose proof (active_length df Hact) as Hsize.
  assert (Hstep : 0 <= step < size) by (apply Z.mod_pos_bound; done).
  unfold update_system_in in Hrun. rewrite guard_active in Hrun by done.
  unfold py_floordiv, py_mod in Hrun.
  rewrite (proj2 (Z.eqb_neq (Z.of_nat (length df)) 0)) in Hrun by lia.
  cbn [bind] in Hrun. fold size in Hrun. fold step in Hrun.
  apply bind_Ok in Hrun as (row & Hrow & Hrun).
  apply bind_Ok in Hrun as (flag & Hflag & Hrun).
  apply bind_Ok in Hrun as (digits & Hdigits & Hrun).
  apply iloc_lookup in Hrow; [|lia].
  rewrite iloc_upto_succ in Hdigits, Hrun by lia.
  rewrite seen_list in Hrun.
  exists row, flag, digits.
  assert (Hflag' : Anomaly_Flag row = Some flag)
    by (destruct (Anomaly_Flag row); simpl in Hflag; congruence).
  split; [done|]. split; [done|]. split; [done|].
  injection Hrun as <-. cbn [live_clock capital_ticker log_history live_console
    capital_style anomaly_ledger_store audit_table anomaly_ticker benford_graph ml_graph].
  unfold status_of, color_of, push_log.
  destruct (flag =? -1), (bool_decide _); simpl; done.
Qed.

Lemma Amount_column_exact (df : DataFrame) :
  column_sum exact_arith (Amount_column exact_arith df) = Amount_sum df.
Proof.
  unfold Amount_column, Amount_sum. cbn [column_sum exact_arith num_of_amount].
  induction df as [|r df IH]; [done|]. cbn [fmap list_fmap foldr]. by rewrite <- IH.
Qed.

(** What an active tick returns over the exact rationals. *)
Lemma update_system_inv (df : DataFrame) (now_time now_clock : string) (n : Z)
    (logs : option (list LogEntry)) (ledger : option (list Row)) (out : Output Q) :
  active df ->
  update_system df now_time now_clock n logs ledger = Ok out ->
  let size := Z.of_nat (length df) in
  let step := n `mod` size in
  exists row flag digits,
    df !! Z.to_nat step = Some row /\
    Anomaly_Flag row = Some flag /\
    traverse (fun r => get_key (first_digit r)) (take (S (Z.to_nat step)) df) = Ok digits /\
    let seen := bool_decide (Award_ID row ∈ Award_ID <$> default [] ledger) in
    live_clock out = (now_clock ++ " UTC")%string /\
    capital_ticker out
      = (inject_Z (n `div` size) * Amount_sum df
         + Amount_sum (take (S (Z.to_nat step)) df))%Q /\
    log_history out
      = push_log (default [] logs)
          (mk_log now_time (substring 0 35 (Recipient_Name row))
             (status_of flag seen) (color_of flag seen)) /\
    live_console out = log_history out /\
    capital_style out = Some (color_of flag seen) /\
    anomaly_ledger_store out
      = (if (flag =? -1) && negb seen then default [] ledger ++ [row]
         else default [] ledger) /\
    audit_table out = anomaly_ledger_store out /\
    anomaly_ticker out = length (anomaly_ledger_store out) /\
    benford_graph out = reindex (value_counts_normalize digits) (seqZ 1 9) 0%Q.
Proof.
  intros Hact Hrun size step.
  destruct (update_system_in_inv exact_arith _ _ _ _ _ _ out Hact Hrun)
    as (row & flag & digits & Hrow & Hflag & Hdigits & Hclock & Hcap & Hlog & Hcon
        & Hstyle & Hled & Htab & Hcnt & Hobs & _).
  exists row, flag, digits.
  split; [exact Hrow|]. split; [exact Hflag|]. split; [exact Hdigits|].
  split; [exact Hclock|]. split.
  - refine (eq_trans Hcap _). by rewrite !Amount_column_exact.
  - split; [exact Hlog|]. split; [exact Hcon|]. split; [exact Hstyle|].
    split; [exact Hled|]. split; [exact Htab|]. split; [exact Hcnt|]. exact Hobs.
Qed.

Lemma annotated_lookup (df : DataFrame) (i : nat) (r : Row) :
  annotated df -> df !! i = Some r ->
  is_Some (Anomaly_Flag r) /\ is_Some (first_digit r).
Proof. intros Hann Hr. exact (proj1 (Forall_lookup _ _) Hann i r Hr). Qed.

Lemma traverse_first_digit (df : DataFrame) :
  annotated df ->
  exists digits, traverse (fun r => get_key (first_digit r)) df = Ok digits.
Proof.
  induction 1 as [|r df [_ [d Hd]] _ [ds IH]]; simpl; [by eexists|].
  rewrite Hd, IH. simpl. by eexists.
Qed.

(** An active tick over an annotated frame does not raise. *)
Lemma update_system_in_total (A : Arith) (df : DataFrame) (now_time now_clock : string)
    (n : Z) (logs : option (list LogEntry)) (ledger : option (list Row)) :
  active df -> annotated df ->
  exists out, update_system_in A df now_time now_clock n logs ledger = Ok out.
Proof.
  intros Hact Hann.
  pose proof (active_length df Hact) as Hsize.
  set (size := Z.of_nat (length df)) in *.
  assert (Hstep : 0 <= n `mod` size < size) by (apply Z.mod_pos_bound; done).
  unfold update_system_in. rewrite guard_active by done.
  unfold py_floordiv, py_mod.
  rewrite (proj2 (Z.eqb_neq (Z.of_nat (length df)) 0)) by (fold size; lia).
  cbn [bind]. fold size.
  destruct (lookup_lt_is_Some_2 df (Z.to_nat (n `mod` size))) as [row Hrow];
    [unfold size in *; lia|].
  rewrite (proj2 (iloc_lookup df (n `mod` size) row (proj1 Hstep)) Hrow). cbn [bind].
  destruct (annotated_lookup df _ row Hann Hrow) as [[flag Hflag] _].
  rewrite Hflag. cbn [get_key bind].
  rewrite iloc_upto_succ by lia.
  destruct (traverse_first_digit (take (S (Z.to_nat (n `mod` size))) df)) as [ds Hds];
    [by apply Forall_take|].
  rewrite Hds. cbn [bind]. by eexists.
Qed.

Lemma update_system_total (df : DataFrame) (now_time now_clock : string) (n : Z)
    (logs : option (list LogEntry)) (ledger : option (list Row)) :
  active df -> annotated df ->
  exists out, update_system df now_time now_clock n logs ledger = Ok out.
Proof.
  intros Hact Hann.
  exact (update_system_in_total exact_arith df now_time now_clock n logs ledger Hact Hann).
Qed.

(** ** Capital analysed *)

Lemma Amount_sum_cons (r : Row) (l : DataFrame) :
  Amount_sum (r :: l) = (float_value (Amount r) + Amount_sum l)%Q.
Proof. reflexivity. Qed.

Lemma Amount_sum_nil : Amount_sum [] = 0%Q.
Proof. reflexivity. Qed.

Lemma Amount_sum_app (l1 l2 : DataFrame) :
  (Amount_sum (l1 ++ l2) == Amount_sum l1 + Amount_sum l2)%Q.
Proof.
  induction l1 as [|r l1 IH].
  - change ([] ++ l2) with l2. rewrite Amount_sum_nil. ring.
  - change ((r :: l1) ++ l2) with (r :: (l1 ++ l2)).
    rewrite !Amount_sum_cons, IH. ring.
Qed.

Lemma Amount_sum_take_S (df : DataFrame) (k : nat) :
  (k < length df)%nat ->
  (Amount_sum (take (S k) df) == Amount_sum (take k df) + amount_at df k)%Q.
Proof.
  intros Hk. destruct (lookup_lt_is_Some_2 df k Hk) as [r Hr].
  rewrite (take_S_r df k r Hr), Amount_sum_app.
  unfold amount_at. rewrite Hr, Amount_sum_cons, Amount_sum_nil. ring.
Qed.

Lemma cumulative_succ (df : DataFrame) (n : Z) :
  df <> [] ->
  (cumulative df (n + 1)
   == cumulative df n + amount_at df (Z.to_nat ((n + 1) `mod` Z.of_nat (length df))))%Q.
Proof.
  intros Hne. assert (Hlen : (0 < length df)%nat) by (destruct df; [done | simpl; lia]).
  unfold cumulative. set (s := Z.of_nat (length df)).
  assert (Hs : 0 < s) by (unfold s; lia).
  pose proof (Z.mod_pos_bound n s Hs) as Hr.
  pose proof (Z.div_mod n s ltac:(lia)) as Hn.
  destruct (decide (n `mod` s + 1 = s)) as [Hwrap|Hin].
  - assert (Hq : (n + 1) `div` s = n `div` s + 1)
      by (symmetry; apply (Z.div_unique_pos _ _ _ 0); lia).
    assert (Hm : (n + 1) `mod` s = 0)
      by (symmetry; apply (Z.mod_unique_pos _ _ (n `div` s + 1)); lia).
    rewrite Hq, Hm, inject_Z_plus. change (Z.to_nat 0) with 0%nat.
    rewrite (Amount_sum_take_S df 0) by done.
    replace (S (Z.to_nat (n `mod` s))) with (length df) by (unfold s in *; lia).
    rewrite firstn_all. change (take 0 df) with (@nil Row). rewrite Amount_sum_nil.
    change (inject_Z 1) with 1%Q. ring.
  - assert (Hq : (n + 1) `div` s = n `div` s)
      by (symmetry; apply (Z.div_unique_pos _ _ _ (n `mod` s + 1)); lia).
    assert (Hm : (n + 1) `mod` s = n `mod` s + 1)
      by (symmetry; apply (Z.mod_unique_pos _ _ (n `div` s)); lia).
    rewrite Hq, Hm.
    replace (Z.to_nat (n `mod` s + 1)) with (S (Z.to_nat (n `mod` s))) by lia.
    rewrite (Amount_sum_take_S df (S (Z.to_nat (n `mod` s))))
      by (unfold s in *; lia).
    ring.
Qed.

Lemma amounts_upto_take (A : Arith) (df : DataFrame) (m : nat) :
  (m <= length df)%nat ->
  omap (fun i => (fun r => num_of_amount A (Amount r)) <$> df !! i) (seq 0 m)
  = Amount_column A (take m df).
Proof.
  unfold Amount_column. induction m as [|m IH]; intros Hle; [done|].
  destruct (lookup_lt_is_Some_2 df m ltac:(lia)) as [r Hr].
  rewrite seq_S, omap_app, IH by lia. cbn [Nat.add].
  rewrite (take_S_r df m r Hr), fmap_app. f_equal.
  change (omap ?f [m]) with (match f m with Some y => [y] | None => [] end).
  cbn beta. by rewrite Hr.
Qed.

Lemma amounts_through_take (A : Arith) (df : DataFrame) (k : nat) :
  (k < length df)%nat ->
  amounts_through A df k = Amount_column A (take (S k) df).
Proof. intros Hk. apply amounts_upto_take. lia. Qed.

(** C3. At every tick [n >= 0] over an annotated batch on the playback
    branch, in whatever arithmetic the column has, the callback takes
    [cycle = n // batch_size] and [position = n % batch_size] (so
    [n = cycle * batch_size + position] with [0 <= position < batch_size]) and
    reports as capital [cycle] times the column sum of all amounts plus the
    column sum of the amounts at the indices 0 through [position]. *)
Theorem capital_analyzed_formula (A : Arith) (df : DataFrame)
    (now_time now_clock : string) (n : Z)
    (logs : option (list LogEntry)) (ledger : option (list Row)) :
  0 <= n -> active df -> annotated df ->
  let batch_size := Z.of_nat (length df) in
  exists cycle position out,
    py_floordiv n batch_size = Ok cycle /\
    py_mod n batch_size = Ok position /\
    n = cycle * batch_size + position /\
    0 <= cycle /\ 0 <= position < batch_size /\
    update_system_in A df now_time now_clock n logs ledger = Ok out /\
    capital_ticker out
    = num_add A
        (num_mul A (num_of_int A cycle)
           (column_sum A (amounts_through A df (length df - 1))))
        (column_sum A (amounts_through A df (Z.to_nat position))).
Proof.
  intros Hn Hact Hann batch_size.
  pose proof (active_length df Hact) as Hsize. fold batch_size in Hsize.
  destruct (update_system_in_total A df now_time now_clock n logs ledger Hact Hann)
    as [out Hout].
  destruct (update_system_in_inv A _ _ _ _ _ _ _ Hact Hout)
    as (row & flag & digits & _ & _ & _ & _ & Hcap & _).
  fold batch_size in Hcap.
  pose proof (Z.mod_pos_bound n batch_size Hsize) as Hpos.
  exists (n `div` batch_size), (n `mod` batch_size), out.
  unfold py_floordiv, py_mod. rewrite (proj2 (Z.eqb_neq batch_size 0)) by lia.
  split; [done|]. split; [done|].
  split; [rewrite Z.mul_comm; apply Z.div_mod; lia|].
  split; [apply Z.div_pos; lia|]. split; [done|]. split; [done|].
  rewrite Hcap.
  rewrite !amounts_through_take by (unfold batch_size in *; lia).
  replace (S (length df - 1)) with (length df) by (unfold batch_size in *; lia).
  by rewrite firstn_all.
Qed.

Lemma batch3_active : active batch3.
Proof. discriminate. Qed.

Lemma batch3_annotated : annotated batch3.
Proof. repeat constructor; by eexists. Qed.

Lemma batch10_active : active batch10.
Proof. discriminate. Qed.

Lemma batch10_annotated : annotated batch10.
Proof. repeat constructor; by eexists. Qed.

Lemma batch_03_active : active batch_03.
Proof. discriminate. Qed.

Lemma batch_03_annotated : annotated batch_03.
Proof. repeat constructor; by eexists. Qed.

Lemma batch_1e16_active : active batch_1e16.
Proof. discriminate. Qed.

Lemma batch_1e16_annotated : annotated batch_1e16.
Proof. repeat constructor; by eexists. Qed.

Lemma capital_analyzed_formula_witness :
  exists cycle position out,
    py_floordiv 3 2 = Ok cycle /\ py_mod 3 2 = Ok position /\
    update_system_in binary64 batch_1e16 "12:00:03" "12:00:03" 3 None None = Ok out.
Proof.
  destruct (capital_analyzed_formula binary64 batch_1e16 "12:00:03" "12:00:03" 3 None None
              ltac:(lia) batch_1e16_active batch_1e16_annotated)
    as (cycle & position & out & Hd & Hm & _ & _ & _ & Hout & _).
  exists cycle, position, out. repeat split; assumption.
Defined.

(** In binary64 the column sum of 1e16 and 1.0 is 1e16: at tick 1 the
    capital is [0 * 1e16 + 1e16], and the exact total 1e16 + 1 is not a
    float. *)
Lemma capital_binary64_absorbs :
  exists out,
    update_system_in binary64 batch_1e16 "12:00:01" "12:00:01" 1 None None = Ok out /\
    capital_ticker out = 1e16%float.
Proof. eexists. split; [by vm_compute | reflexivity]. Qed.

Lemma active_dec (df : DataFrame) : {active df} + {~ active df}.
Proof.
  destruct df as [|r0 rest]; [right; intros []|]. cbn [active].
  destruct (decide (Award_ID r0 = "N/A")); [right | left]; tauto.
Qed.

(** ** Accumulation over the cycles *)


Section RoundedOrder.

Variable A : Arith.

(** The order of the column's numbers, and which of them are finite. *)
Variable le : num A -> num A -> Prop.
Variable finite : num A -> Prop.

(** What an arithmetic that rounds each result to the nearest number
    guarantees, binary64 among them: a non-negative integer times a finite
    non-negative number is non-negative and grows with the integer, adding
    the same non-negative number keeps the order of non-negative numbers,
    and a column of non-negative numbers has a non-negative sum. *)
Hypothesis product_nonneg :
  forall k s, 0 <= k -> finite s -> le (num_of_int A 0) s ->
              le (num_of_int A 0) (num_mul A (num_of_int A k) s).
Hypothesis product_monotone :
  forall j k s, 0 <= j <= k -> finite s -> le (num_of_int A 0) s ->
                le (num_mul A (num_of_int A j) s) (num_mul A (num_of_int A k) s).
Hypothesis sum_monotone :
  forall a b c, le (num_of_int A 0) a -> le a b -> le (num_of_int A 0) c ->
                le (num_add A a c) (num_add A b c).
Hypothesis column_sum_nonneg :
  forall l, Forall (le (num_of_int A 0)) l -> le (num_of_int A 0) (column_sum A l).


End RoundedOrder.



(** In binary64, on the amounts 0.0 and 0.3: the capital at tick 11 is at
    most the capital at tick 13, one cycle later at the same position. *)
Lemma capital_same_position_binary64 :
  exists out11 out13,
    update_system_in binary64 batch_03 "12:00:11" "12:00:11" 11 None None = Ok out11 /\
    update_system_in binary64 batch_03 "12:00:13" "12:00:13" 13 None None = Ok out13 /\
    PrimFloat.leb (capital_ticker out11) (capital_ticker out13) = true.
Proof.
  eexists _, _. split; [by vm_compute|]. split; [by vm_compute|]. by vm_compute.
Qed.

(** With a negative amount in the batch the capital can go down from one
    tick to the next. *)
Lemma capital_can_decrease :
  exists out0 out1,
    update_system batch_refund "12:00:01" "12:00:01" 0 None None = Ok out0 /\
    update_system batch_refund "12:00:02" "12:00:02" 1 None None = Ok out1 /\
    (capital_ticker out1 < capital_ticker out0)%Q.
Proof. eexists _, _. split; [by vm_compute|]. split; [by vm_compute|]. by vm_compute. Qed.

(** ** The cursor at the end of the first cycle *)

(** C4, as stated, fails: on the batch with amounts 1..10 the capital at
    tick 9 is 55 and at tick 10 it is 56, not 55 + 1 + 55. *)
Lemma cursor_wrap_counterexample :
  exists out9 out10,
    update_system batch10 "12:00:09" "12:00:09" 9 None None = Ok out9 /\
    update_system batch10 "12:00:10" "12:00:10" 10 None None = Ok out10 /\
    ~ (capital_ticker out10
       == capital_ticker out9 + amount_at batch10 0 + Amount_sum batch10)%Q.
Proof. eexists _, _. split; [by vm_compute|]. split; [by vm_compute|]. by vm_compute. Qed.

(** C4, amended. With ten rows, tick 9 is cycle 0 at position 9 and tick 10
    is cycle 1 at position 0; the capital at tick 9 is the full batch sum and
    the capital at tick 10 is the capital at tick 9 plus the first amount. *)
Theorem cursor_wrap (df : DataFrame) (time9 clock9 time10 clock10 : string)
    (logs9 logs10 : option (list LogEntry)) (ledger9 ledger10 : option (list Row)) :
  length df = 10%nat -> active df -> annotated df ->
  let batch_size := Z.of_nat (length df) in
  py_floordiv 9 batch_size = Ok 0 /\ py_mod 9 batch_size = Ok 9 /\
  py_floordiv 10 batch_size = Ok 1 /\ py_mod 10 batch_size = Ok 0 /\
  exists out9 out10,
    update_system df time9 clock9 9 logs9 ledger9 = Ok out9 /\
    update_system df time10 clock10 10 logs10 ledger10 = Ok out10 /\
    (capital_ticker out9 == Amount_sum df)%Q /\
    (capital_ticker out10 == capital_ticker out9 + amount_at df 0)%Q.
Proof.
  intros Hlen Hact Hann batch_size.
  assert (Hne : df <> []) by (by destruct df).
  unfold batch_size. rewrite Hlen. do 4 (split; [reflexivity|]).
  destruct (update_system_total df time9 clock9 9 logs9 ledger9 Hact Hann)
    as [out9 Hout9].
  destruct (update_system_total df time10 clock10 10 logs10 ledger10 Hact Hann)
    as [out10 Hout10].
  exists out9, out10. split; [done|]. split; [done|].
  destruct (update_system_inv _ _ _ _ _ _ _ Hact Hout9)
    as (? & ? & ? & _ & _ & _ & _ & Hcap9 & _).
  destruct (update_system_inv _ _ _ _ _ _ _ Hact Hout10)
    as (? & ? & ? & _ & _ & _ & _ & Hcap10 & _).
  fold (cumulative df 9) in Hcap9. fold (cumulative df 10) in Hcap10.
  rewrite Hcap9, Hcap10.
  assert (H9 : (cumulative df 9 == Amount_sum df)%Q).
  { unfold cumulative. rewrite Hlen.
    change (9 `div` Z.of_nat 10) with 0. change (Z.to_nat (9 `mod` Z.of_nat 10)) with 9%nat.
    rewrite <- Hlen, firstn_all. change (inject_Z 0) with 0%Q. ring. }
  split; [done|].
  change 10 with (9 + 1) at 1. rewrite cumulative_succ by done.
  rewrite Hlen. reflexivity.
Qed.

Lemma cursor_wrap_witness :
  exists out9 out10,
    update_system batch10 "12:00:09" "12:00:09" 9 None None = Ok out9 /\
    update_system batch10 "12:00:10" "12:00:10" 10 None None = Ok out10 /\
    (capital_ticker out10 == capital_ticker out9 + amount_at batch10 0)%Q.
Proof.
  destruct (cursor_wrap batch10 "12:00:09" "12:00:09" "12:00:10" "12:00:10"
              None None None None eq_refl batch10_active batch10_annotated)
    as (_ & _ & _ & _ & out9 & out10 & H9 & H10 & _ & Hstep).
  exists out9, out10. repeat split; assumption.
Defined.

(** ** The observed digit distribution *)

(** C5. Line 294 divides each digit's count by the number of all rows seen,
    the rows with digit 0 among them, and leaves digit 0 out of the bars
    only afterwards. Once the rows with the amounts 12.0 and 0.0 have been
    seen, the bar of digit 1 is 0.5 where the count of non-zero-digit
    entries as divisor gives 1, and the nine bars add up to 0.5, in binary64
    and in exact arithmetic alike. *)
Theorem observed_distribution_zero_amount :
  (exists out,
     update_system_in binary64 batch_zero_amount "12:00:01" "12:00:01" 1 None None
     = Ok out /\
     benford_graph out
     = [(1, 0.5%float); (2, 0%float); (3, 0%float); (4, 0%float); (5, 0%float);
        (6, 0%float); (7, 0%float); (8, 0%float); (9, 0%float)] /\
     fold_left PrimFloat.add (benford_graph out).*2 0%float = 0.5%float /\
     num_div binary64 (num_of_int binary64 1) (num_of_int binary64 1) = 1%float) /\
  (exists out,
     update_system batch_zero_amount "12:00:01" "12:00:01" 1 None None = Ok out /\
     benford_graph out
     = [(1, (1 # 2)%Q); (2, 0%Q); (3, 0%Q); (4, 0%Q); (5, 0%Q); (6, 0%Q); (7, 0%Q);
        (8, 0%Q); (9, 0%Q)] /\
     (foldr Qplus 0 (benford_graph out).*2 == 1 # 2)%Q).
Proof.
  split.
  - eexists. split; [by vm_compute|]. repeat split; by vm_compute.
  - eexists. split; [by vm_compute|]. split; by vm_compute.
Qed.

(** ** The anomaly ledger *)

Lemma last_push_log (logs : list LogEntry) (e : LogEntry) :
  last (push_log logs e) = Some e.
Proof.
  unfold push_log.
  destruct (1000 <? length (logs ++ [e]))%nat eqn:Hcap; [|apply last_snoc].
  destruct logs as [|e0 logs]; [by vm_compute in Hcap|].
  cbn [app tail]. apply last_snoc.
Qed.

(** C6. At a tick over an active annotated batch the row under the cursor
    gets the status PASSED, with the ledger unchanged, when its flag is not
    the outlier label; FLAGGED, with the row appended to the ledger, when it
    is flagged and its id is not yet in the ledger; MONITORED, with the
    ledger unchanged, when it is flagged and its id is already there. So two
    ticks that show a flagged row of the same id, the first on the empty
    ledger and the second on the ledger the first returned, report FLAGGED
    and then MONITORED, and the ledger count is 1 after both. *)
Theorem ledger_observe (df : DataFrame) :
  active df -> annotated df ->
  (forall now_time now_clock n logs ledger,
    exists out row flag entry,
      update_system df now_time now_clock n logs ledger = Ok out /\
      df !! Z.to_nat (n `mod` Z.of_nat (length df)) = Some row /\
      Anomaly_Flag row = Some flag /\
      last (log_history out) = Some entry /\
      (flag <> -1 ->
         log_status entry = "PASSED" /\
         anomaly_ledger_store out = default [] ledger) /\
      (flag = -1 -> Award_ID row ∉ Award_ID <$> default [] ledger ->
         log_status entry = "FLAGGED" /\
         anomaly_ledger_store out = default [] ledger ++ [row]) /\
      (flag = -1 -> Award_ID row ∈ Award_ID <$> default [] ledger ->
         log_status entry = "MONITORED" /\
         anomaly_ledger_store out = default [] ledger)) /\
  (forall time1 clock1 time2 clock2 n1 n2 logs row1 row2,
    df !! Z.to_nat (n1 `mod` Z.of_nat (length df)) = Some row1 ->
    df !! Z.to_nat (n2 `mod` Z.of_nat (length df)) = Some row2 ->
    Anomaly_Flag row1 = Some (-1) -> Anomaly_Flag row2 = Some (-1) ->
    Award_ID row1 = Award_ID row2 ->
    exists out1 out2 entry1 entry2,
      update_system df time1 clock1 n1 logs (Some []) = Ok out1 /\
      update_system df time2 clock2 n2 (Some (log_history out1))
        (Some (anomaly_ledger_store out1)) = Ok out2 /\
      last (log_history out1) = Some entry1 /\ log_status entry1 = "FLAGGED" /\
      last (log_history out2) = Some entry2 /\ log_status entry2 = "MONITORED" /\
      anomaly_ticker out1 = 1%nat /\ anomaly_ticker out2 = 1%nat /\
      anomaly_ledger_store out2 = [row1]).
Proof.
  intros Hact Hann. split.
  - intros now_time now_clock n logs ledger.
    destruct (update_system_total df now_time now_clock n logs ledger Hact Hann)
      as [out Hout].
    destruct (update_system_inv _ _ _ _ _ _ _ Hact Hout)
      as (row & flag & digits & Hrow & Hflag & _ & _ & _ & Hlog & _ & _ & Hled & _).
    exists out, row, flag. eexists.
    split; [done|]. split; [done|]. split; [done|].
    split; [rewrite Hlog; apply last_push_log|].
    rewrite Hled. cbn [log_status]. unfold status_of.
    split; [|split].
    + intros Hne. by rewrite (proj2 (Z.eqb_neq flag (-1)) Hne).
    + intros -> Hnew. by rewrite bool_decide_eq_false_2.
    + intros -> Hold. by rewrite bool_decide_eq_true_2.
  - intros time1 clock1 time2 clock2 n1 n2 logs row1 row2 Hr1 Hr2 Hf1 Hf2 Hid.
    destruct (update_system_total df time1 clock1 n1 logs (Some []) Hact Hann)
      as [out1 Hout1].
    destruct (update_system_inv _ _ _ _ _ _ _ Hact Hout1)
      as (r1 & f1 & ? & Hr1' & Hf1' & _ & _ & _ & Hlog1 & _ & _ & Hled1 & _ & Hcnt1 & _).
    rewrite Hr1 in Hr1'. injection Hr1' as <-.
    rewrite Hf1 in Hf1'. injection Hf1' as <-.
    cbn [default fmap list_fmap] in Hled1, Hlog1.
    rewrite bool_decide_eq_false_2 in Hled1, Hlog1 by (apply not_elem_of_nil).
    cbn in Hled1.
    destruct (update_system_total df time2 clock2 n2 (Some (log_history out1))
                (Some (anomaly_ledger_store out1)) Hact Hann) as [out2 Hout2].
    destruct (update_system_inv _ _ _ _ _ _ _ Hact Hout2)
      as (r2 & f2 & ? & Hr2' & Hf2' & _ & _ & _ & Hlog2 & _ & _ & Hled2 & _ & Hcnt2 & _).
    rewrite Hr2 in Hr2'. injection Hr2' as <-.
    rewrite Hf2 in Hf2'. injection Hf2' as <-.
    rewrite Hled1 in Hled2, Hlog2. cbn [default fmap list_fmap] in Hled2, Hlog2.
    rewrite bool_decide_eq_true_2 in Hled2, Hlog2
      by (rewrite <- Hid; apply list_elem_of_here).
    cbn in Hled2.
    exists out1, out2. eexists _, _.
    split; [done|]. split; [done|].
    split; [rewrite Hlog1; apply last_push_log|]. split; [done|].
    split; [rewrite Hlog2; apply last_push_log|]. split; [done|].
    rewrite Hcnt1, Hcnt2, Hled1, Hled2. done.
Qed.

Lemma ledger_observe_witness :
  exists out1 out2 entry1 entry2,
    update_system batch3 "12:00:02" "12:00:02" 2 None (Some []) = Ok out1 /\
    update_system batch3 "12:00:05" "12:00:05" 5 (Some (log_history out1))
      (Some (anomaly_ledger_store out1)) = Ok out2 /\
    last (log_history out1) = Some entry1 /\ log_status entry1 = "FLAGGED" /\
    last (log_history out2) = Some entry2 /\ log_status entry2 = "MONITORED" /\
    anomaly_ticker out1 = 1%nat /\ anomaly_ticker out2 = 1%nat.
Proof.
  destruct (proj2 (ledger_observe batch3 batch3_active batch3_annotated)
              "12:00:02" "12:00:02" "12:00:05" "12:00:05" 2 5 None
              (mk_annotated "W91-C" "gamma" (mk_float false [d9; d5] 3) (-1) 9)
              (mk_annotated "W91-C" "gamma" (mk_float false [d9; d5] 3) (-1) 9)
              eq_refl eq_refl eq_refl eq_refl eq_refl)
    as (out1 & out2 & e1 & e2 & H1 & H2 & H3 & H4 & H5 & H6 & H7 & H8 & _).
  exists out1, out2, e1, e2. repeat split; assumption.
Defined.

(** ** The ledger over a whole session *)

(** What one tick does to the stored ledger. *)
Lemma tick_ledger (df : DataFrame) (now_time now_clock : string) (n : Z) (s : Session) :
  (~ active df /\ s_ledger (tick df now_time now_clock n s) = []) \/
  s_ledger (tick df now_time now_clock n s) = s_ledger s \/
  (exists row,
     s_ledger (tick df now_time now_clock n s) = s_ledger s ++ [row] /\
     df !! Z.to_nat (n `mod` Z.of_nat (length df)) = Some row /\
     Anomaly_Flag row = Some (-1) /\
     Award_ID row ∉ Award_ID <$> s_ledger s).
Proof.
  unfold tick. destruct (active_dec df) as [Hact|Hno].
  - right.
    destruct (update_system df now_time now_clock n (Some (s_logs s)) (Some (s_ledger s)))
      as [out|e] eqn:Hout; [|by left].
    destruct (update_system_inv _ _ _ _ _ _ _ Hact Hout)
      as (row & flag & ? & Hrow & Hflag & _ & _ & _ & _ & _ & _ & Hled & _).
    cbn [s_ledger default] in *. rewrite Hled.
    destruct (flag =? -1) eqn:Hf; [|by left].
    apply Z.eqb_eq in Hf as ->.
    destruct (bool_decide _) eqn:Hseen; [by left|].
    right. exists row. apply bool_decide_eq_false_1 in Hseen. done.
  - left. split; [done|]. by rewrite update_system_inactive.
Qed.

Lemma reachable_inactive (df : DataFrame) (s : Session) :
  ~ active df -> reachable df s -> s_logs s = [] /\ s_ledger s = [].
Proof.
  intros Hno. induction 1 as [|s now_time now_clock n _ _]; [done|].
  unfold tick. by rewrite update_system_inactive.
Qed.

Lemma reachable_ledger (df : DataFrame) (s : Session) :
  reachable df s ->
  NoDup (Award_ID <$> s_ledger s) /\
  Forall (fun r => r ∈ df /\ Anomaly_Flag r = Some (-1)) (s_ledger s).
Proof.
  induction 1 as [|s now_time now_clock n Hs [IHdup IHall]].
  - split; constructor.
  - destruct (tick_ledger df now_time now_clock n s)
      as [[_ ->]|[->|(row & -> & Hrow & Hflag & Hnew)]]; [split; constructor|done|].
    split.
    + rewrite fmap_app. apply NoDup_app. split; [done|].
      split; [|apply NoDup_singleton].
      intros id Hid [->|[]%elem_of_nil]%elem_of_cons. done.
    + apply Forall_app. split; [done|]. constructor; [|constructor].
      split; [|done]. by eapply list_elem_of_lookup_2.
Qed.

(** C7. In every session reachable by ticks from the empty stores, the
    ledger's ids are pairwise distinct and every entry is a flagged row of
    the batch; and one more tick, whatever its number, leaves the ledger as
    it is or appends one row to it, namely the row under the cursor, which
    is flagged and whose id was not in the ledger. So the ledger never
    shrinks, grows by at most one entry per tick, keeps its entries in
    insertion order, and holds each flagged transaction at most once. *)
Theorem ledger_invariant (df : DataFrame) (s : Session) :
  reachable df s ->
  NoDup (Award_ID <$> s_ledger s) /\
  Forall (fun r => r ∈ df /\ Anomaly_Flag r = Some (-1)) (s_ledger s) /\
  forall now_time now_clock n,
    let s' := tick df now_time now_clock n s in
    (s_ledger s' = s_ledger s \/
     exists row,
       s_ledger s' = s_ledger s ++ [row] /\
       df !! Z.to_nat (n `mod` Z.of_nat (length df)) = Some row /\
       Anomaly_Flag row = Some (-1) /\
       Award_ID row ∉ Award_ID <$> s_ledger s) /\
    s_ledger s `prefix_of` s_ledger s' /\
    (length (s_ledger s) <= length (s_ledger s') <= S (length (s_ledger s)))%nat /\
    NoDup (Award_ID <$> s_ledger s').
Proof.
  intros Hs. destruct (reachable_ledger df s Hs) as [Hdup Hall].
  split; [done|]. split; [done|].
  intros now_time now_clock n s'. subst s'.
  assert (Hs' : reachable df (tick df now_time now_clock n s)) by (by constructor).
  destruct (reachable_ledger df _ Hs') as [Hdup' _].
  destruct (tick_ledger df now_time now_clock n s)
    as [[Hno Hnil]|[Hsame|(row & Happ & Hrow)]].
  - destruct (reachable_inactive df s Hno Hs) as [_ Hempty].
    rewrite Hnil, Hempty. split; [by left|]. split; [done|]. split; [simpl; lia|constructor].
  - rewrite Hsame. split; [by left|]. split; [done|]. split; [lia|done].
  - split; [right; by exists row|]. rewrite Happ in *.
    split; [by apply prefix_app_r|]. split; [|done].
    rewrite length_app. simpl. lia.
Qed.

Lemma ledger_invariant_witness :
  NoDup (Award_ID <$> s_ledger (tick batch3 "12:00:05" "12:00:05" 5
                                  (tick batch3 "12:00:02" "12:00:02" 2 session0))).
Proof.
  exact (proj1 (ledger_invariant batch3 _
           (reachable_tick batch3 _ "12:00:05" "12:00:05" 5
              (reachable_tick batch3 _ "12:00:02" "12:00:02" 2
                 (reachable_start batch3))))).
Defined.

(** ** No data *)

(** C8. [run_forensics] returns the empty frame for the empty frame, and a
    tick over the empty frame returns the no-data outputs — the clock, an
    empty feed, zero capital, a zero count, empty figures and an empty
    ledger — whatever the tick number and the stores hold, although both
    [//] and [%] by the batch size and any row lookup would raise there. *)
Theorem empty_batch_no_data :
  (forall (RandomState : Type) fit_predict format_amount (g : RandomState),
     run_forensics RandomState fit_predict format_amount g [] = Ok []) /\
  (forall now_time now_clock n logs ledger,
     update_system [] now_time now_clock n logs ledger = Ok (no_data now_clock)) /\
  (forall now_clock,
     live_clock (no_data now_clock) = (now_clock ++ " UTC")%string /\
     live_console (no_data now_clock) = [] /\
     capital_ticker (no_data now_clock) = 0%Q /\
     anomaly_ticker (no_data now_clock) = 0%nat /\
     benford_graph (no_data now_clock) = [] /\
     ml_graph (no_data now_clock) = ([], []) /\
     audit_table (no_data now_clock) = [] /\
     log_history (no_data now_clock) = [] /\
     anomaly_ledger_store (no_data now_clock) = []) /\
  (forall now_time now_clock n s, tick [] now_time now_clock n s = session0) /\
  (forall n, py_floordiv n (Z.of_nat (length (@nil Row))) = Raise ZeroDivisionError) /\
  (forall n, py_mod n (Z.of_nat (length (@nil Row))) = Raise ZeroDivisionError) /\
  (forall i, iloc [] i = Raise IndexError).
Proof.
  repeat split.
  intros i. unfold iloc. cbn [length]. rewrite Z.add_0_l.
  destruct (0 <=? i); destruct (i <? 0); by rewrite ?lookup_nil.
Qed.

(** C10. When annotation of what was fetched yields the empty frame, the
    master batch is the single placeholder row, whose Award ID is N/A and
    whose amount is 0. Over any batch whose first Award ID is N/A a tick
    returns exactly what it returns over the empty batch, the no-data
    outputs, so in every session over the placeholder batch the feed log and
    the ledger stay empty. *)
Theorem placeholder_no_data :
  (forall (RandomState : Type) fit_predict format_amount (g : RandomState) fetched,
     run_forensics RandomState fit_predict format_amount g fetched = Ok [] ->
     make_df_master RandomState fit_predict format_amount g fetched = Ok [placeholder]) /\
  Award_ID placeholder = "N/A" /\
  (float_value (Amount placeholder) == 0)%Q /\
  (forall r rest now_time now_clock n logs ledger,
     Award_ID r = "N/A" ->
     update_system (r :: rest) now_time now_clock n logs ledger = Ok (no_data now_clock) /\
     update_system (r :: rest) now_time now_clock n logs ledger
     = update_system [] now_time now_clock n logs ledger) /\
  (forall s, reachable [placeholder] s -> s_logs s = [] /\ s_ledger s = []).
Proof.
  split; [|split; [done|split; [done|split]]].
  - intros RandomState fit_predict format_amount g fetched Hrun.
    unfold make_df_master. by rewrite Hrun.
  - intros r rest now_time now_clock n logs ledger Hid.
    assert (Hno : ~ active (r :: rest)) by (cbn [active]; tauto).
    rewrite (update_system_inactive (r :: rest)) by done.
    rewrite (update_system_inactive []) by (intros []). done.
  - intros s. apply reachable_inactive. cbn [active placeholder Award_ID]. tauto.
Qed.

Lemma placeholder_no_data_witness :
  make_df_master unit threshold_detector float_str tt [] = Ok [placeholder] /\
  update_system [placeholder] "12:00:07" "12:00:07" 7 None None = Ok (no_data "12:00:07").
Proof.
  destruct placeholder_no_data as (Hinit & _ & _ & Htick & _).
  split.
  - apply (Hinit unit threshold_detector float_str tt []). reflexivity.
  - apply (Htick placeholder [] "12:00:07" "12:00:07" 7 None None). reflexivity.
Defined.

(* ------------------------------------------------------------------ *)
(** * Further properties of the code *)

(** ** Identifiers and the fetched frame *)

Lemma length_upper (s : string) : String.length (upper s) = String.length s.
Proof. induction s as [|c s IH]; simpl; [done | by rewrite IH]. Qed.

Lemma length_substring_0 (n : nat) (s : string) :
  (n <= String.length s)%nat -> String.length (substring 0 n s) = n.
Proof.
  revert s. induction n as [|n IH]; intros [|c s] Hn; simpl in *; try done; try lia.
  rewrite IH; [done | lia].
Qed.

Lemma length_substring_0_le (n : nat) (s : string) :
  (String.length (substring 0 n s) <= n)%nat.
Proof.
  revert s. induction n as [|n IH]; intros [|c s]; simpl; try lia.
  specialize (IH s). lia.
Qed.

Lemma substring_0_prefix (n : nat) (s : string) :
  exists t, s = (substring 0 n s ++ t)%string.
Proof.
  revert s. induction n as [|n IH]; intros [|c s]; simpl;
    try (by exists EmptyString); try (by eexists).
  destruct (IH s) as [t Ht]. exists t. rewrite append_String. by rewrite <- Ht.
Qed.

Lemma length_append_string (a b : string) :
  String.length (a ++ b)%string = (String.length a + String.length b)%nat.
Proof. induction a as [|c a IH]; [done|]. rewrite append_String. simpl. by rewrite IH. Qed.

Lemma append_inj_length (a b x y : string) :
  String.length a = String.length b ->
  (a ++ x)%string = (b ++ y)%string -> x = y.
Proof.
  revert b. induction a as [|c a IH]; intros [|c' b] Hlen; simpl in Hlen; try done.
  rewrite !append_String. intros [= _ H]. apply (IH b); [lia | done].
Qed.

Lemma make_long_id_head (md5_hexdigest : string -> string) (short_id : string) :
  exists t, make_long_id md5_hexdigest short_id
            = String "W" (String "9" (String "1" (String "-" t))).
Proof. by eexists. Qed.

Lemma make_long_id_not_placeholder (md5_hexdigest : string -> string) (short_id : string) :
  make_long_id md5_hexdigest short_id <> "N/A".
Proof. destruct (make_long_id_head md5_hexdigest short_id) as [t ->]. discriminate. Qed.

(** X1. When the digest has at least ten characters (an MD5 hex digest has
    32), [make_long_id] is injective: two short identifiers with the same
    long identifier are equal, whatever the digests are. The long identifier
    is 15 characters longer than the short one and is never N/A. *)
Theorem make_long_id_injective (md5_hexdigest : string -> string) :
  (forall s, (10 <= String.length (md5_hexdigest s))%nat) ->
  forall s1 s2,
    (make_long_id md5_hexdigest s1 = make_long_id md5_hexdigest s2 -> s1 = s2) /\
    String.length (make_long_id md5_hexdigest s1) = (15 + String.length s1)%nat /\
    make_long_id md5_hexdigest s1 <> "N/A".
Proof.
  intros Hlen s1 s2.
  assert (Hpre : forall s,
            String.length (substring 0 10 (upper (md5_hexdigest s))) = 10%nat).
  { intros s. apply length_substring_0. rewrite length_upper. apply Hlen. }
  split; [|split].
  - unfold make_long_id. cbv zeta. intros Heq.
    apply (append_inj_length "W91-" "W91-") in Heq; [|done].
    apply append_inj_length in Heq; [|by rewrite !Hpre].
    by apply (append_inj_length "-" "-") in Heq.
  - unfold make_long_id. cbv zeta.
    rewrite !length_append_string, Hpre. simpl. lia.
  - apply make_long_id_not_placeholder.
Qed.

Lemma make_long_id_injective_witness :
  String.length (make_long_id constant_digest "FA8620") = (15 + String.length "FA8620")%nat.
Proof.
  refine (proj1 (proj2 (make_long_id_injective constant_digest _ "FA8620" "N00019"))).
  intros s. simpl. lia.
Defined.

Lemma fetched_row_Some (md5_hexdigest : string -> string) (rec : ApiRecord) (r : Row) :
  fetched_row md5_hexdigest rec = Some r ->
  exists short_id,
    api_Award_ID rec = Some short_id /\
    r = mk_row (make_long_id md5_hexdigest short_id) (api_Recipient_Name rec)
          (api_Award_Amount rec) None None None.
Proof.
  unfold fetched_row. destruct (api_Award_ID rec) as [short_id|]; [|done].
  intros [= <-]. by exists short_id.
Qed.

(** The frame is either empty or the image of the whole result list. *)
Lemma fetch_cases (md5_hexdigest : string -> string) (post : option Response) :
  fetch_real_us_data md5_hexdigest post = [] \/
  exists results,
    post = Some (mk_response 200 (Some results)) /\
    Forall2 (fun rec r => fetched_row md5_hexdigest rec = Some r) results
      (fetch_real_us_data md5_hexdigest post).
Proof.
  unfold fetch_real_us_data. destruct post as [[status [results|]]|]; cbn [status_code json_results].
  - destruct (status =? 200) eqn:Hst; [|by left]. apply Z.eqb_eq in Hst as ->.
    destruct (mapM _ results) as [df|] eqn:Hmap; [|by left].
    right. exists results. split; [done|]. by apply mapM_Some_1.
  - left. by destruct (status =? 200).
  - by left.
Qed.

Lemma fetch_rows_long_id (md5_hexdigest : string -> string) (post : option Response) :
  Forall (fun r =>
            (exists short_id, Award_ID r = make_long_id md5_hexdigest short_id) /\
            Award_ID r <> "N/A" /\
            Anomaly_Flag r = None /\ first_digit r = None /\ Display_Amount r = None)
    (fetch_real_us_data md5_hexdigest post).
Proof.
  destruct (fetch_cases md5_hexdigest post) as [->|(results & _ & Hall)]; [constructor|].
  induction Hall as [|rec r results df' Hr _ IH]; constructor; [|done].
  apply fetched_row_Some in Hr as (short_id & _ & ->). cbn.
  split; [by exists short_id|]. split; [apply make_long_id_not_placeholder | done].
Qed.

(** X2. Whatever the request returned, the fetched frame is empty or takes
    the playback branch of the callback: each of its rows carries a long
    identifier made by [make_long_id], which is not N/A, and none of the
    keys that annotation adds. *)
Theorem fetch_frame_shape (md5_hexdigest : string -> string) (post : option Response) :
  let df := fetch_real_us_data md5_hexdigest post in
  (df = [] \/ active df) /\
  Forall (fun r =>
            (exists short_id, Award_ID r = make_long_id md5_hexdigest short_id) /\
            Award_ID r <> "N/A" /\
            Anomaly_Flag r = None /\ first_digit r = None /\ Display_Amount r = None) df.
Proof.
  intros df. pose proof (fetch_rows_long_id md5_hexdigest post) as Hrows.
  fold df in Hrows. split; [|done].
  destruct df as [|r0 rest]; [by left|]. right. cbn [active].
  apply Forall_cons in Hrows as [(_ & Hid & _) _]. done.
Qed.

(** X3. The fetch is all or nothing. With status 200 and a result list in
    which every record has an identifier, the frame has one row per record,
    in order, with the record's name and amount; a single record without an
    identifier, a missing result list, another status or a failed request
    leaves the empty frame. *)
Theorem fetch_all_or_nothing (md5_hexdigest : string -> string) :
  (forall results,
     Forall (fun rec => is_Some (api_Award_ID rec)) results ->
     Forall2 (fun rec r =>
                (exists short_id, api_Award_ID rec = Some short_id /\
                                  Award_ID r = make_long_id md5_hexdigest short_id) /\
                Recipient_Name r = api_Recipient_Name rec /\
                Amount r = api_Award_Amount rec)
       results
       (fetch_real_us_data md5_hexdigest (Some (mk_response 200 (Some results))))) /\
  (forall results,
     Exists (fun rec => api_Award_ID rec = None) results ->
     fetch_real_us_data md5_hexdigest (Some (mk_response 200 (Some results))) = []) /\
  (forall status results,
     status <> 200 ->
     fetch_real_us_data md5_hexdigest (Some (mk_response status results)) = []) /\
  (forall status,
     fetch_real_us_data md5_hexdigest (Some (mk_response status None)) = []) /\
  fetch_real_us_data md5_hexdigest None = [].
Proof.
  split; [|split; [|split; [|split]]].
  - intros results Hids. unfold fetch_real_us_data. cbn [status_code json_results Z.eqb].
    cbn [Pos.eqb].
    destruct (mapM_is_Some_2 (fetched_row md5_hexdigest) results) as [df Hdf].
    { eapply Forall_impl; [exact Hids|]. intros rec [s Hs]. unfold compose, fetched_row.
      rewrite Hs. by eexists. }
    rewrite Hdf. apply mapM_Some_1 in Hdf.
    eapply Forall2_impl; [exact Hdf|]. intros rec r Hr. cbn beta in Hr.
    apply fetched_row_Some in Hr as (s & Hs & ->). split; [by exists s | done].
  - intros results Hmiss. unfold fetch_real_us_data. cbn [status_code json_results Z.eqb].
    cbn [Pos.eqb].
    rewrite (mapM_None_2 (fetched_row md5_hexdigest) results); [done|].
    eapply Exists_impl; [exact Hmiss|]. intros rec Hrec. unfold fetched_row. by rewrite Hrec.
  - intros status results Hst. unfold fetch_real_us_data. cbn [status_code].
    by rewrite (proj2 (Z.eqb_neq status 200) Hst).
  - intros status. unfold fetch_real_us_data. cbn [status_code json_results].
    by destruct (status =? 200).
  - done.
Qed.

Lemma fetch_all_or_nothing_witness :
  length (fetch_real_us_data constant_digest (Some response_demo)) = 3%nat /\
  fetch_real_us_data constant_digest
    (Some (mk_response 200 (Some [mk_api None "delta" (mk_float false [d7] 1)]))) = [].
Proof.
  destruct (fetch_all_or_nothing constant_digest) as (Hall & Hnone & _).
  split.
  - assert (Hids : Forall (fun rec => is_Some (api_Award_ID rec)) results_demo)
      by (repeat constructor; by eexists).
    exact (eq_sym (Forall2_length _ _ _ (Hall results_demo Hids))).
  - apply Hnone. by constructor.
Defined.

(** ** From the request to the first tick *)

Lemma annotated_zip_annotate (format_amount : pyfloat -> string) (df : DataFrame) (vs : list Z) :
  length vs = length df -> annotated (zip_with (annotate_row format_amount) df vs).
Proof.
  revert vs. induction df as [|r df IH]; intros [|v vs] Hlen; simpl in *; try done;
    try constructor.
  - split; by eexists.
  - apply IH. lia.
Qed.

Lemma active_zip_annotate (format_amount : pyfloat -> string) (df : DataFrame) (vs : list Z) :
  length vs = length df -> active df -> active (zip_with (annotate_row format_amount) df vs).
Proof. destruct df as [|r df], vs as [|v vs]; simpl; done. Qed.

Section StartUp.

Context {RandomState : Type}.
Variable fit_predict : Q -> option Z -> RandomState -> list pyfloat -> list Z.
Variable format_amount : pyfloat -> string.
Variable md5_hexdigest : string -> string.

(** scikit-learn's contract: one label per sample. *)
Hypothesis fit_predict_one_per_sample :
  forall c s g X, length (fit_predict c s g X) = length X.

(** X4. Whatever the request returned, if the amounts fetched are finite
    the start-up code builds a master batch without raising: the placeholder
    batch when nothing was fetched, and otherwise an annotated batch on the
    playback branch with one row per fetched record; and on that master batch
    the callback returns outputs at every tick, for any stored log and ledger. *)
Theorem startup_then_ticks (g : RandomState) (post : option Response) :
  let fetched := fetch_real_us_data md5_hexdigest post in
  Forall (fun r => float_wf (Amount r) = true) fetched ->
  exists df_master,
    make_df_master RandomState fit_predict format_amount g fetched = Ok df_master /\
    ((fetched = [] /\ df_master = [placeholder]) \/
     (fetched <> [] /\ active df_master /\ annotated df_master /\
      length df_master = length fetched /\
      Award_ID <$> df_master = Award_ID <$> fetched)) /\
    forall now_time now_clock n logs ledger,
      exists out, update_system df_master now_time now_clock n logs ledger = Ok out.
Proof.
  intros fetched Hwf.
  set (labels := fit_predict (6 # 100) (Some 42) g (Amount <$> fetched)).
  assert (Hlen : length labels = length fetched)
    by (unfold labels; by rewrite fit_predict_one_per_sample, length_fmap).
  unfold make_df_master.
  rewrite (run_forensics_Ok fit_predict format_amount fit_predict_one_per_sample g fetched Hwf).
  fold labels. cbn [bind].
  assert (Hshape : fetched = [] \/ active fetched).
  { pose proof (fetch_rows_long_id md5_hexdigest post) as Hrows. fold fetched in Hrows.
    destruct fetched as [|r0 rest]; [by left|]. right. cbn [active].
    apply Forall_cons in Hrows as [(_ & Hid & _) _]. done. }
  destruct Hshape as [Hnil|Hact].
  - rewrite Hnil. cbn [zip_with]. exists [placeholder]. split; [done|].
    split; [by left|].
    intros. exists (no_data now_clock). apply update_system_inactive.
    cbn [active placeholder Award_ID]. tauto.
  - set (df := zip_with (annotate_row format_amount) fetched labels).
    assert (Hact' : active df) by (by apply active_zip_annotate).
    assert (Hann : annotated df) by (by apply annotated_zip_annotate).
    exists df. split; [by destruct df|].
    split.
    + right. split; [by destruct fetched|]. split; [done|]. split; [done|].
      unfold df. split.
      * rewrite length_zip_with. lia.
      * clearbody labels. clear -Hlen. revert labels Hlen.
        induction fetched as [|r l IH]; intros [|v vs] Hlen; simpl in *; try done.
        f_equal. apply IH. lia.
    + intros. by apply update_system_total.
Qed.

End StartUp.

Lemma startup_then_ticks_witness :
  exists df_master,
    make_df_master unit threshold_detector float_str tt
      (fetch_real_us_data constant_digest (Some response_demo)) = Ok df_master /\
    length df_master = 3%nat.
Proof.
  destruct (startup_then_ticks threshold_detector float_str constant_digest
              ltac:(intros; apply length_fmap) tt (Some response_demo))
    as (df & Hdf & [[Hnil _]|(_ & _ & _ & Hlen & _)] & _).
  - repeat constructor.
  - discriminate Hnil.
  - exists df. split; [exact Hdf | exact Hlen].
Defined.

(** ** The leading digit and the printed layout *)

(** X5. On a finite amount the digit extraction never raises and returns
    the first significant digit of the printed expansion, in positional and
    in exponent notation alike; so two amounts with the same significant
    digits get the same leading digit, whatever their signs and magnitudes. *)
Theorem leading_digit_layout (x y : pyfloat) :
  float_wf x = true -> float_wf y = true ->
  leading_digit x = Ok (head_digit x) /\
  (f_digits x = f_digits y -> leading_digit x = leading_digit y).
Proof.
  intros Hx Hy.
  destruct (leading_digit_head x Hx) as [Hdx _].
  destruct (leading_digit_head y Hy) as [Hdy _].
  split; [done|]. intros Hds. rewrite Hdx, Hdy. unfold head_digit. by rewrite Hds.
Qed.

Lemma leading_digit_layout_witness :
  leading_digit (mk_float true [d1; d5] (-4)) = leading_digit (mk_float false [d1; d5] 20).
Proof.
  apply (leading_digit_layout (mk_float true [d1; d5] (-4)) (mk_float false [d1; d5] 20));
    reflexivity.
Defined.

(** ** The feed log *)

Lemma push_log_cases (logs : list LogEntry) (e : LogEntry) :
  ((length logs < 1000)%nat /\ push_log logs e = logs ++ [e]) \/
  ((1000 <= length logs)%nat /\ push_log logs e = drop 1 logs ++ [e]).
Proof.
  unfold push_log.
  destruct (1000 <? length (logs ++ [e]))%nat eqn:Hcap.
  - apply Nat.ltb_lt in Hcap. rewrite length_app in Hcap. cbn [length] in Hcap.
    right. split; [lia|].
    destruct logs as [|e0 logs]; [cbn [length] in Hcap; lia | done].
  - apply Nat.ltb_ge in Hcap. rewrite length_app in Hcap. cbn [length] in Hcap.
    left. split; [lia | done].
Qed.

Lemma length_push_log (logs : list LogEntry) (e : LogEntry) :
  length (push_log logs e)
  = if (length logs <? 1000)%nat then S (length logs) else length logs.
Proof.
  destruct (push_log_cases logs e) as [[Hlt ->]|[Hge ->]].
  - rewrite (proj2 (Nat.ltb_lt _ _) Hlt), length_app. cbn [length]. lia.
  - rewrite (proj2 (Nat.ltb_ge _ _) Hge), length_app, length_drop. cbn [length]. lia.
Qed.

Lemma Forall_push_log (P : LogEntry -> Prop) (logs : list LogEntry) (e : LogEntry) :
  Forall P logs -> P e -> Forall P (push_log logs e).
Proof.
  intros Hl He.
  assert (Hone : Forall P [e]) by (constructor; [done | constructor]).
  destruct (push_log_cases logs e) as [[_ ->]|[_ ->]]; apply Forall_app; split;
    [done | done | by apply Forall_drop | done].
Qed.

Lemma feed_style_of (flag : Z) (seen : bool) (t name : string) :
  feed_style (mk_log t name (status_of flag seen) (color_of flag seen)).
Proof.
  unfold feed_style, status_of, color_of. cbn [log_status log_color].
  destruct (flag =? -1), seen; tauto.
Qed.

(** What one tick does to the stored feed. *)
Lemma tick_logs (df : DataFrame) (now_time now_clock : string) (n : Z) (s : Session) :
  (~ active df /\ s_logs (tick df now_time now_clock n s) = []) \/
  s_logs (tick df now_time now_clock n s) = s_logs s \/
  (exists row flag seen,
     cursor_row df n = Some row /\
     s_logs (tick df now_time now_clock n s)
     = push_log (s_logs s)
         (mk_log now_time (substring 0 35 (Recipient_Name row))
            (status_of flag seen) (color_of flag seen))).
Proof.
  unfold tick. destruct (active_dec df) as [Hact|Hno].
  - right.
    destruct (update_system df now_time now_clock n (Some (s_logs s)) (Some (s_ledger s)))
      as [out|e] eqn:Hout; [|by left].
    destruct (update_system_inv _ _ _ _ _ _ _ Hact Hout)
      as (row & flag & ? & Hrow & _ & _ & _ & _ & Hlog & _).
    right. exists row, flag. eexists. split; [exact Hrow|]. exact Hlog.
  - left. split; [done|]. by rewrite update_system_inactive.
Qed.

(** X6. In every session reachable by ticks from the empty stores the feed
    log holds at most 1000 entries, whatever the batch and the tick numbers. *)
Theorem feed_capped (df : DataFrame) (s : Session) :
  reachable df s -> (length (s_logs s) <= 1000)%nat.
Proof.
  induction 1 as [|s now_time now_clock n _ IH]; [simpl; lia|].
  destruct (tick_logs df now_time now_clock n s)
    as [[_ ->]|[->|(row & flag & seen & _ & ->)]]; [simpl; lia | done |].
  rewrite length_push_log. destruct (length (s_logs s) <? 1000)%nat eqn:Hlt; [|done].
  apply Nat.ltb_lt in Hlt. lia.
Qed.

Lemma feed_capped_witness :
  (length (s_logs (tick batch3 "12:00:05" "12:00:05" 5
                     (tick batch3 "12:00:02" "12:00:02" 2 session0))) <= 1000)%nat.
Proof.
  exact (feed_capped batch3 _
           (reachable_tick batch3 _ "12:00:05" "12:00:05" 5
              (reachable_tick batch3 _ "12:00:02" "12:00:02" 2
                 (reachable_start batch3)))).
Defined.

(** X7. In every reachable session each feed entry shows a recipient name
    of the batch cut to at most 35 characters, and one of the three status
    and colour pairs: PASSED in #00f5d4, FLAGGED in #ff4d4d, MONITORED in
    #FFD700. *)
Theorem feed_entries_wellformed (df : DataFrame) (s : Session) :
  reachable df s ->
  Forall (fun e =>
            (String.length (log_name e) <= 35)%nat /\
            (exists row t, row ∈ df /\ Recipient_Name row = (log_name e ++ t)%string) /\
            feed_style e) (s_logs s).
Proof.
  induction 1 as [|s now_time now_clock n _ IH]; [constructor|].
  destruct (tick_logs df now_time now_clock n s)
    as [[_ ->]|[->|(row & flag & seen & Hrow & ->)]]; [constructor | done |].
  apply Forall_push_log; [done|]. cbn [log_name].
  split; [apply length_substring_0_le|]. split; [|apply feed_style_of].
  destruct (substring_0_prefix 35 (Recipient_Name row)) as [t Ht].
  exists row, t. split; [|done]. by eapply list_elem_of_lookup_2.
Qed.

Lemma feed_entries_wellformed_witness :
  Forall (fun e => (String.length (log_name e) <= 35)%nat)
    (s_logs (tick batch3 "12:00:02" "12:00:02" 2 session0)).
Proof.
  eapply Forall_impl.
  - exact (feed_entries_wellformed batch3 _
             (reachable_tick batch3 _ "12:00:02" "12:00:02" 2 (reachable_start batch3))).
  - intros e [H _]. exact H.
Defined.

(** X8. One tick on the playback branch appends one entry, stamped with the
    time read at that tick, to a stored feed of fewer than 1000 entries; on a
    stored feed of 1000 entries or more it drops the oldest entry and appends
    the new one, so the length stays what it was: the cap is kept, and a
    longer feed handed in is not cut back to 1000. *)
Theorem feed_fifo (df : DataFrame) (now_time now_clock : string) (n : Z)
    (logs : list LogEntry) (ledger : option (list Row)) :
  active df -> annotated df ->
  exists out e,
    update_system df now_time now_clock n (Some logs) ledger = Ok out /\
    log_time e = now_time /\
    live_console out = log_history out /\
    ((length logs < 1000)%nat -> log_history out = logs ++ [e]) /\
    ((1000 <= length logs)%nat ->
       log_history out = drop 1 logs ++ [e] /\
       length (log_history out) = length logs).
Proof.
  intros Hact Hann.
  destruct (update_system_total df now_time now_clock n (Some logs) ledger Hact Hann)
    as [out Hout].
  destruct (update_system_inv _ _ _ _ _ _ _ Hact Hout)
    as (row & flag & ? & _ & _ & _ & _ & _ & Hlog & Hcon & _).
  change (default [] (Some logs)) with logs in Hlog.
  set (e := mk_log now_time (substring 0 35 (Recipient_Name row))
              (status_of flag (bool_decide (Award_ID row ∈ Award_ID <$> default [] ledger)))
              (color_of flag (bool_decide (Award_ID row ∈ Award_ID <$> default [] ledger))))
    in Hlog.
  exists out, e. split; [done|]. split; [done|]. split; [done|].
  rewrite Hlog.
  destruct (push_log_cases logs e) as [[Hlt ->]|[Hge ->]].
  - split; [done|]. intros; lia.
  - split; [intros; lia|]. intros _. split; [done|].
    rewrite length_app, length_drop. cbn [length]. lia.
Qed.

Lemma feed_fifo_witness :
  exists out e,
    update_system batch3 "12:00:02" "12:00:02" 2 (Some []) None = Ok out /\
    log_time e = "12:00:02" /\
    log_history out = [e].
Proof.
  destruct (feed_fifo batch3 "12:00:02" "12:00:02" 2 [] None batch3_active batch3_annotated)
    as (out & e & Hout & Ht & _ & Hlt & _).
  exists out, e. split; [exact Hout|]. split; [exact Ht|].
  apply Hlt. simpl. lia.
Defined.

(** ** Sequences of ticks *)

Lemma play_snoc (df : DataFrame) (clock : Z -> string) (ticks : list Z) (n : Z)
    (s : Session) :
  play df clock (ticks ++ [n]) s = tick df (clock n) (clock n) n (play df clock ticks s).
Proof. unfold play. by rewrite foldl_snoc. Qed.

Lemma play_cons (df : DataFrame) (clock : Z -> string) (ticks : list Z) (n : Z)
    (s : Session) :
  play df clock (n :: ticks) s = play df clock ticks (tick df (clock n) (clock n) n s).
Proof. reflexivity. Qed.

(** On the playback branch of an annotated batch a tick always stores what
    the callback returned. *)
Lemma tick_active (df : DataFrame) (now_time now_clock : string) (n : Z) (s : Session) :
  active df -> annotated df ->
  exists row flag,
    cursor_row df n = Some row /\
    Anomaly_Flag row = Some flag /\
    let seen := bool_decide (Award_ID row ∈ Award_ID <$> s_ledger s) in
    s_logs (tick df now_time now_clock n s)
    = push_log (s_logs s)
        (mk_log now_time (substring 0 35 (Recipient_Name row))
           (status_of flag seen) (color_of flag seen)) /\
    s_ledger (tick df now_time now_clock n s)
    = if (flag =? -1) && negb seen then s_ledger s ++ [row] else s_ledger s.
Proof.
  intros Hact Hann. unfold tick.
  destruct (update_system_total df now_time now_clock n (Some (s_logs s))
              (Some (s_ledger s)) Hact Hann) as [out Hout].
  rewrite Hout.
  destruct (update_system_inv _ _ _ _ _ _ _ Hact Hout)
    as (row & flag & ? & Hrow & Hflag & _ & _ & _ & Hlog & _ & _ & Hled & _).
  exists row, flag. split; [exact Hrow|]. split; [exact Hflag|].
  split; [exact Hlog | exact Hled].
Qed.

(** X9. After any sequence of ticks from the empty stores on the playback
    branch of an annotated batch, the feed shows, in order, the time and the
    truncated recipient name of the most recent 1000 ticks: all of them
    while there have been at most 1000, so the feed has
    [min (number of ticks) 1000] entries. *)
Theorem feed_most_recent (df : DataFrame) (clock : Z -> string) (ticks : list Z) :
  active df -> annotated df ->
  let s := play df clock ticks session0 in
  (fun e => (log_time e, log_name e)) <$> s_logs s
  = drop (length ticks - 1000) (feed_line df clock <$> ticks) /\
  length (s_logs s) = Nat.min (length ticks) 1000.
Proof.
  intros Hact Hann. cbv zeta.
  induction ticks as [|n ticks [IHlines IHlen]] using rev_ind; [done|].
  rewrite play_snoc.
  destruct (tick_active df (clock n) (clock n) n (play df clock ticks session0) Hact Hann)
    as (row & flag & Hrow & _ & Hlog & _).
  rewrite Hlog. clear Hlog.
  set (L := s_logs (play df clock ticks session0)) in *.
  set (seen := bool_decide _).
  set (e := mk_log _ _ _ _).
  assert (He : (log_time e, log_name e) = feed_line df clock n)
    by (unfold feed_line; by rewrite Hrow).
  rewrite length_push_log, length_app, fmap_app. cbn [length fmap list_fmap].
  destruct (push_log_cases L e) as [[Hlt ->]|[Hge ->]].
  - rewrite (proj2 (Nat.ltb_lt _ _) Hlt).
    rewrite fmap_app, IHlines. cbn [fmap list_fmap]. rewrite He.
    replace (length ticks - 1000)%nat with 0%nat by lia.
    replace (length ticks + 1 - 1000)%nat with 0%nat by lia.
    split; [done | lia].
  - rewrite (proj2 (Nat.ltb_ge _ _) Hge).
    rewrite fmap_app, fmap_drop, IHlines, drop_drop. cbn [fmap list_fmap]. rewrite He.
    rewrite drop_app_le by (rewrite length_fmap; lia).
    split; [f_equal; f_equal; lia | lia].
Qed.

Lemma feed_most_recent_witness :
  length (s_logs (play batch3 (fun _ => "12:00:00") [0; 1; 2; 3] session0)) = 4%nat.
Proof.
  exact (proj2 (feed_most_recent batch3 (fun _ => "12:00:00") [0; 1; 2; 3]
                  batch3_active batch3_annotated)).
Defined.

(** ** The ledger over a replay *)

Lemma flagged_rows_length (df : DataFrame) :
  (length (flagged_rows df) <= length df)%nat.
Proof. apply length_filter. Qed.

(** X10. In every reachable session the ledger holds at most as many
    entries as the batch has flagged rows, however long the replay has run;
    so the anomaly count never exceeds the size of the batch. *)
Theorem ledger_bounded (df : DataFrame) (s : Session) :
  reachable df s ->
  (length (s_ledger s) <= length (flagged_rows df))%nat /\
  (length (s_ledger s) <= length df)%nat.
Proof.
  intros Hs. destruct (reachable_ledger df s Hs) as [Hdup Hall].
  assert (Hle : (length (s_ledger s) <= length (flagged_rows df))%nat).
  { apply submseteq_length, NoDup_submseteq.
    - by apply (NoDup_fmap_1 Award_ID).
    - intros r Hr. apply list_elem_of_filter.
      destruct (proj1 (Forall_forall _ _) Hall r Hr) as [Hin Hflag]. done. }
  split; [done|]. pose proof (flagged_rows_length df). lia.
Qed.

Lemma ledger_bounded_witness :
  (length (s_ledger (tick batch3 "12:00:05" "12:00:05" 5
                       (tick batch3 "12:00:02" "12:00:02" 2 session0)))
   <= length (flagged_rows batch3))%nat.
Proof.
  exact (proj1 (ledger_bounded batch3 _
           (reachable_tick batch3 _ "12:00:05" "12:00:05" 5
              (reachable_tick batch3 _ "12:00:02" "12:00:02" 2
                 (reachable_start batch3))))).
Defined.

Lemma tick_keeps_ids (df : DataFrame) (now_time now_clock : string) (n : Z)
    (s : Session) (id : string) :
  active df ->
  id ∈ Award_ID <$> s_ledger s ->
  id ∈ Award_ID <$> s_ledger (tick df now_time now_clock n s).
Proof.
  intros Hact Hid.
  destruct (tick_ledger df now_time now_clock n s)
    as [[Hno _]|[->|(row & -> & _)]]; [done | done |].
  rewrite fmap_app. apply elem_of_app. by left.
Qed.

Lemma play_keeps_ids (df : DataFrame) (clock : Z -> string) (ticks : list Z)
    (s : Session) (id : string) :
  active df ->
  id ∈ Award_ID <$> s_ledger s ->
  id ∈ Award_ID <$> s_ledger (play df clock ticks s).
Proof.
  intros Hact. revert s. induction ticks as [|n ticks IH]; intros s Hid; [done|].
  rewrite play_cons. apply IH. by apply tick_keeps_ids.
Qed.

Lemma tick_records (df : DataFrame) (now_time now_clock : string) (n : Z)
    (s : Session) (row : Row) :
  active df -> annotated df ->
  cursor_row df n = Some row -> Anomaly_Flag row = Some (-1) ->
  Award_ID row ∈ Award_ID <$> s_ledger (tick df now_time now_clock n s).
Proof.
  intros Hact Hann Hrow Hflag.
  destruct (tick_active df now_time now_clock n s Hact Hann)
    as (row' & flag & Hrow' & Hflag' & _ & Hled).
  rewrite Hrow in Hrow'. injection Hrow' as <-.
  rewrite Hflag in Hflag'. injection Hflag' as <-.
  rewrite Hled. cbn [Z.eqb Pos.eqb andb].
  destruct (bool_decide _) eqn:Hseen; cbn [negb].
  - by apply bool_decide_eq_true_1 in Hseen.
  - rewrite fmap_app. apply elem_of_app. right. apply list_elem_of_here.
Qed.

Lemma play_records (df : DataFrame) (clock : Z -> string) (ticks : list Z)
    (s : Session) (n : Z) (row : Row) :
  active df -> annotated df ->
  n ∈ ticks -> cursor_row df n = Some row -> Anomaly_Flag row = Some (-1) ->
  Award_ID row ∈ Award_ID <$> s_ledger (play df clock ticks s).
Proof.
  intros Hact Hann Hn Hrow Hflag. revert s.
  induction ticks as [|m ticks IH]; intros s; [by apply elem_of_nil in Hn|].
  rewrite play_cons. apply elem_of_cons in Hn as [->|Hn].
  - apply play_keeps_ids; [done|]. by apply tick_records.
  - by apply IH.
Qed.

Lemma tick_stable (df : DataFrame) (now_time now_clock : string) (n : Z) (s : Session) :
  active df ->
  (forall row, row ∈ df -> Anomaly_Flag row = Some (-1) ->
               Award_ID row ∈ Award_ID <$> s_ledger s) ->
  s_ledger (tick df now_time now_clock n s) = s_ledger s.
Proof.
  intros Hact Hall.
  destruct (tick_ledger df now_time now_clock n s)
    as [[Hno _]|[->|(row & _ & Hrow & Hflag & Hnew)]]; [done | done |].
  destruct Hnew. apply Hall; [|done]. by eapply list_elem_of_lookup_2.
Qed.

(** X11. Once a sequence of ticks from the empty stores has put the cursor
    on every position of an annotated batch on the playback branch, as the
    ticks 0, 1, ..., size - 1 do, the ledger holds the identifier of every
    flagged row, and no later tick changes it, whatever its number. *)
Theorem ledger_complete_after_cycle (df : DataFrame) (clock : Z -> string)
    (ticks : list Z) :
  active df -> annotated df ->
  (forall i, (i < length df)%nat ->
             exists n, n ∈ ticks /\ Z.to_nat (n `mod` Z.of_nat (length df)) = i) ->
  let s := play df clock ticks session0 in
  (forall row, row ∈ df -> Anomaly_Flag row = Some (-1) ->
               Award_ID row ∈ Award_ID <$> s_ledger s) /\
  (forall clock' more, s_ledger (play df clock' more s) = s_ledger s) /\
  (forall now_time now_clock n, s_ledger (tick df now_time now_clock n s) = s_ledger s).
Proof.
  intros Hact Hann Hcover s.
  assert (Hall : forall row, row ∈ df -> Anomaly_Flag row = Some (-1) ->
                 Award_ID row ∈ Award_ID <$> s_ledger s).
  { intros row Hin Hflag.
    apply list_elem_of_lookup_1 in Hin as [i Hi].
    destruct (Hcover i (lookup_lt_Some _ _ _ Hi)) as (n & Hn & Hpos).
    apply (play_records df clock ticks session0 n row); try done.
    unfold cursor_row. by rewrite Hpos. }
  split; [done|]. split.
  - intros clock' more. generalize dependent s. intros s.
    induction more as [|m more IH] using rev_ind; intros Hall; [done|].
    rewrite play_snoc. rewrite tick_stable; [by apply IH | done |].
    rewrite IH by done. done.
  - intros. by apply tick_stable.
Qed.

Lemma ledger_complete_after_cycle_witness :
  s_ledger (tick batch3 "12:00:07" "12:00:07" 7
              (play batch3 (fun _ => "12:00:00") [0; 1; 2] session0))
  = s_ledger (play batch3 (fun _ => "12:00:00") [0; 1; 2] session0).
Proof.
  refine (proj2 (proj2 (ledger_complete_after_cycle batch3 (fun _ => "12:00:00") [0; 1; 2]
                          batch3_active batch3_annotated _)) "12:00:07" "12:00:07" 7).
  intros i Hi. cbn [length batch3] in Hi.
  destruct i as [|[|[|i]]]; [exists 0 | exists 1 | exists 2 | lia];
    (split; [set_solver | reflexivity]).
Defined.

Lemma cursor_row_small (df : DataFrame) (k : nat) :
  (k < length df)%nat -> cursor_row df (Z.of_nat k) = df !! k.
Proof.
  intros Hk. unfold cursor_row. rewrite Z.mod_small by lia. by rewrite Nat2Z.id.
Qed.

Lemma flagged_rows_snoc (df : DataFrame) (row : Row) :
  flagged_rows (df ++ [row])
  = flagged_rows df ++ (if decide (Anomaly_Flag row = Some (-1)) then [row] else []).
Proof.
  unfold flagged_rows. by rewrite filter_app.
Qed.

(** X12. When the identifiers of an annotated batch on the playback branch
    are pairwise distinct, the ticks 0, 1, ..., k - 1 from the empty stores
    leave in the ledger exactly the flagged rows among the first k rows, in
    batch order; after the whole first cycle the ledger is the list of the
    flagged rows of the batch. *)
Theorem ledger_first_cycle (df : DataFrame) (clock : Z -> string) (k : nat) :
  active df -> annotated df ->
  NoDup (Award_ID <$> df) ->
  (k <= length df)%nat ->
  s_ledger (play df clock (Z.of_nat <$> seq 0 k) session0)
  = flagged_rows (take k df) /\
  s_ledger (play df clock (Z.of_nat <$> seq 0 (length df)) session0)
  = flagged_rows df.
Proof.
  intros Hact Hann Hdup.
  assert (Hk : forall k, (k <= length df)%nat ->
            s_ledger (play df clock (Z.of_nat <$> seq 0 k) session0)
            = flagged_rows (take k df)).
  { clear k. induction k as [|k IH]; intros Hk; [done|].
    rewrite seq_S, fmap_app. cbn [fmap list_fmap Nat.add]. rewrite play_snoc.
    set (s := play df clock (Z.of_nat <$> seq 0 k) session0) in *.
    destruct (tick_active df (clock (Z.of_nat k)) (clock (Z.of_nat k)) (Z.of_nat k) s
                Hact Hann) as (row & flag & Hrow & Hflag & _ & Hled).
    rewrite cursor_row_small in Hrow by lia.
    rewrite Hled, IH by lia.
    rewrite (take_S_r df k row Hrow), flagged_rows_snoc.
    assert (Hnew : bool_decide (Award_ID row ∈ Award_ID <$> flagged_rows (take k df))
                   = false).
    { apply bool_decide_eq_false_2. intros Hin.
      apply list_elem_of_fmap in Hin as (r' & Hid & Hr').
      apply list_elem_of_filter in Hr' as [_ Hr'].
      apply list_elem_of_lookup_1 in Hr' as [j Hj].
      rewrite lookup_take in Hj. destruct (decide (j < k)%nat) as [Hjk|]; [|done].
      assert (j = k); [|lia].
      apply (NoDup_lookup (Award_ID <$> df) j k (Award_ID row) Hdup).
      - rewrite list_lookup_fmap, Hj. cbn. by rewrite Hid.
      - by rewrite list_lookup_fmap, Hrow. }
    rewrite Hnew. cbn [negb]. rewrite andb_true_r.
    destruct (decide (Anomaly_Flag row = Some (-1))) as [Heq|Hne].
    - rewrite Hflag in Heq. injection Heq as ->. done.
    - destruct (flag =? -1) eqn:Hf; [|by rewrite app_nil_r].
      apply Z.eqb_eq in Hf as ->. done. }
  intros Hle. split; [by apply Hk|].
  rewrite Hk by done. by rewrite firstn_all.
Qed.

Lemma ledger_first_cycle_witness :
  s_ledger (play batch3 (fun _ => "12:00:00") (Z.of_nat <$> seq 0 (length batch3)) session0)
  = flagged_rows batch3.
Proof.
  refine (proj2 (ledger_first_cycle batch3 (fun _ => "12:00:00") 3
                   batch3_active batch3_annotated _ _)).
  - by apply (bool_decide_unpack _).
  - reflexivity.
Defined.

(** ** The bars over the cycles *)

(** X14. The observed digit distribution depends only on the position of
    the cursor in the cycle: ticks that are a whole number of cycles apart
    show the same bars, whatever the stored feed and ledger are, so the
    profile starts afresh at each wrap-around. *)
Theorem observed_cycle (df : DataFrame) (time1 clock1 time2 clock2 : string) (n c : Z)
    (logs1 logs2 : option (list LogEntry)) (ledger1 ledger2 : option (list Row)) :
  active df -> annotated df ->
  exists out1 out2,
    update_system df time1 clock1 n logs1 ledger1 = Ok out1 /\
    update_system df time2 clock2 (n + c * Z.of_nat (length df)) logs2 ledger2 = Ok out2 /\
    benford_graph out2 = benford_graph out1.
Proof.
  intros Hact Hann.
  pose proof (active_length df Hact) as Hsize.
  destruct (update_system_total df time1 clock1 n logs1 ledger1 Hact Hann)
    as [out1 Hout1].
  destruct (update_system_total df time2 clock2 (n + c * Z.of_nat (length df)) logs2
              ledger2 Hact Hann) as [out2 Hout2].
  exists out1, out2. split; [done|]. split; [done|].
  destruct (update_system_inv _ _ _ _ _ _ _ Hact Hout1)
    as (? & ? & ds1 & _ & _ & Hd1 & _ & _ & _ & _ & _ & _ & _ & _ & Hobs1).
  destruct (update_system_inv _ _ _ _ _ _ _ Hact Hout2)
    as (? & ? & ds2 & _ & _ & Hd2 & _ & _ & _ & _ & _ & _ & _ & _ & Hobs2).
  rewrite Z.mod_add in Hd2 by lia. rewrite Hd1 in Hd2. injection Hd2 as <-.
  by rewrite Hobs1, Hobs2.
Qed.

Lemma observed_cycle_witness :
  exists out1 out2,
    update_system batch3 "12:00:01" "12:00:01" 1 None None = Ok out1 /\
    update_system batch3 "12:00:07" "12:00:07" (1 + 2 * Z.of_nat (length batch3)) None None
    = Ok out2 /\
    benford_graph out2 = benford_graph out1.
Proof.
  exact (observed_cycle batch3 "12:00:01" "12:00:01" "12:00:07" "12:00:07" 1 2
           None None None None batch3_active batch3_annotated).
Defined.

(** ** The outlier map *)

Lemma update_system_graph (df : DataFrame) (now_time now_clock : string) (n : Z)
    (logs : option (list LogEntry)) (ledger : option (list Row)) (out : Output Q) :
  active df ->
  update_system df now_time now_clock n logs ledger = Ok out ->
  let size := Z.of_nat (length df) in
  ml_graph out
  = (marker <$> (if 0 <? n `div` size then indexed df
                 else indexed (take (S (Z.to_nat (n `mod` size))) df)),
     marker <$> filter (fun p => Award_ID p.2 ∈ Award_ID <$> anomaly_ledger_store out)
                  (indexed df)).
Proof.
  intros Hact Hrun size.
  destruct (update_system_in_inv exact_arith _ _ _ _ _ _ out Hact Hrun)
    as (? & ? & ? & _ & _ & _ & _ & _ & _ & _ & _ & _ & _ & _ & _ & Hgraph).
  exact Hgraph.
Qed.

Lemma elem_of_indexed (df : DataFrame) (i : nat) (r : Row) :
  (i, r) ∈ indexed df <-> df !! i = Some r.
Proof.
  unfold indexed. rewrite list_elem_of_lookup. split.
  - intros [j Hj]. apply lookup_zip_with_Some in Hj as (x & y & [= -> ->] & Hx & Hy).
    apply lookup_seq in Hx as [-> _]. done.
  - intros Hr. exists i. apply lookup_zip_with_Some. exists i, r.
    split; [done|]. split; [|done]. apply lookup_seq. split; [done|].
    by eapply lookup_lt_Some.
Qed.

Lemma indexed_take (df : DataFrame) (k : nat) :
  indexed (take k df) = take k (indexed df).
Proof.
  unfold indexed. by rewrite zip_with_take, take_seq, length_take.
Qed.

(** X16. At tick [n >= 0] on the playback branch the background of the
    outlier map shows the first [n + 1] rows of the batch with their indices
    and amounts, and from the second cycle on the whole batch: it has
    [min (n + 1) size] markers, never more than the batch has rows. *)
Theorem background_markers (df : DataFrame) (now_time now_clock : string) (n : Z)
    (logs : option (list LogEntry)) (ledger : option (list Row)) :
  0 <= n -> active df -> annotated df ->
  exists out,
    update_system df now_time now_clock n logs ledger = Ok out /\
    (ml_graph out).1 = take (Z.to_nat n + 1) (marker <$> indexed df) /\
    length (ml_graph out).1 = Nat.min (Z.to_nat n + 1) (length df).
Proof.
  intros Hn Hact Hann.
  pose proof (active_length df Hact) as Hsize.
  destruct (update_system_total df now_time now_clock n logs ledger Hact Hann)
    as [out Hout].
  exists out. split; [done|].
  assert (Hlen : length (marker <$> indexed df) = length df).
  { unfold indexed. rewrite length_fmap, length_zip_with, length_seq. lia. }
  assert (Hbg : (ml_graph out).1 = take (Z.to_nat n + 1) (marker <$> indexed df)).
  { rewrite (update_system_graph _ _ _ _ _ _ _ Hact Hout). cbn [fst].
    set (size := Z.of_nat (length df)) in *.
    destruct (0 <? n `div` size) eqn:Hloops.
    - apply Z.ltb_lt in Hloops.
      assert (size <= n).
      { destruct (decide (size <= n)); [done|].
        rewrite Z.div_small in Hloops by lia. lia. }
      rewrite take_ge; [done|]. rewrite Hlen. unfold size in *. lia.
    - apply Z.ltb_ge in Hloops.
      assert (n < size).
      { destruct (decide (n < size)); [done|].
        assert (1 <= n `div` size); [|lia].
        apply Z.div_le_lower_bound; lia. }
      rewrite Z.mod_small by lia.
      rewrite indexed_take, fmap_take. f_equal. lia. }
  split; [done|]. rewrite Hbg, length_take, Hlen. done.
Qed.

Lemma background_markers_witness :
  exists out,
    update_system batch10 "12:00:04" "12:00:04" 4 None None = Ok out /\
    length (ml_graph out).1 = 5%nat.
Proof.
  destruct (background_markers batch10 "12:00:04" "12:00:04" 4 None None
              ltac:(lia) batch10_active batch10_annotated) as (out & Hout & _ & Hlen).
  exists out. split; [exact Hout | exact Hlen].
Defined.

(** X17. The flagged markers of the outlier map are exactly the rows of the
    batch whose identifier is in the ledger that the tick returns, each with
    its own index and amount. *)
Theorem flagged_markers (df : DataFrame) (now_time now_clock : string) (n : Z)
    (logs : option (list LogEntry)) (ledger : option (list Row)) :
  active df -> annotated df ->
  exists out,
    update_system df now_time now_clock n logs ledger = Ok out /\
    forall i a,
      (i, a) ∈ (ml_graph out).2 <->
      exists row, df !! i = Some row /\ a = Amount row /\
                  Award_ID row ∈ Award_ID <$> anomaly_ledger_store out.
Proof.
  intros Hact Hann.
  destruct (update_system_total df now_time now_clock n logs ledger Hact Hann)
    as [out Hout].
  exists out. split; [done|]. intros i a.
  rewrite (update_system_graph _ _ _ _ _ _ _ Hact Hout). cbn [snd].
  rewrite list_elem_of_fmap. split.
  - intros ([j row] & [= -> ->] & Hin).
    apply list_elem_of_filter in Hin as [Hid Hin]. apply elem_of_indexed in Hin.
    exists row. done.
  - intros (row & Hrow & -> & Hid). exists (i, row). split; [done|].
    apply list_elem_of_filter. split; [done | by apply elem_of_indexed].
Qed.

Lemma flagged_markers_witness :
  exists out,
    update_system batch3 "12:00:02" "12:00:02" 2 None None = Ok out /\
    (2%nat, mk_float false [d9; d5] 3) ∈ (ml_graph out).2.
Proof.
  destruct (flagged_markers batch3 "12:00:02" "12:00:02" 2 None None
              batch3_active batch3_annotated) as (out & Hout & Hmark).
  exists out. split; [exact Hout|].
  apply Hmark. eexists. split; [reflexivity|]. split; [reflexivity|].
  destruct (update_system_inv _ _ _ _ _ _ _ batch3_active Hout)
    as (row & flag & ? & Hrow & Hflag & _ & _ & _ & _ & _ & _ & Hled & _).
  injection Hrow as <-. injection Hflag as <-. rewrite Hled.
  apply list_elem_of_here.
Defined.

(** ** The columns that annotation writes *)

Lemma zip_annotate_columns (format_amount : pyfloat -> string) (df : DataFrame)
    (vs : list Z) :
  length vs = length df ->
  let out := zip_with (annotate_row format_amount) df vs in
  Anomaly_Flag <$> out = Some <$> vs /\
  first_digit <$> out = (fun r => Some (head_digit (Amount r))) <$> df /\
  Display_Amount <$> out = (fun r => Some (format_amount (Amount r))) <$> df /\
  length (flagged_rows out) = length (filter (fun v : Z => v = -1) vs).
Proof.
  revert vs. induction df as [|r df IH]; intros [|v vs] Hlen;
    cbn [length] in Hlen; try done.
  destruct (IH vs ltac:(lia)) as (Hflag & Hdigit & Hdisp & Hcount).
  cbv zeta. cbn [zip_with]. rewrite !fmap_cons, Hflag, Hdigit, Hdisp.
  split; [done|]. split; [done|]. split; [done|].
  unfold flagged_rows in *. rewrite !filter_cons.
  change (Anomaly_Flag (annotate_row format_amount r v)) with (Some v).
  destruct (decide (Some v = Some (-1))) as [[= ->]|Hne].
  - rewrite decide_True by done. cbn [length]. by rewrite Hcount.
  - rewrite decide_False by congruence. done.
Qed.

Section Columns.

Context {RandomState : Type}.
Variable fit_predict : Q -> option Z -> RandomState -> list pyfloat -> list Z.
Variable format_amount : pyfloat -> string.

(** scikit-learn's contract: one label per sample. *)
Hypothesis fit_predict_one_label : forall c s g X, length (fit_predict c s g X) = length X.

(** X18. On a frame of finite amounts [run_forensics] writes the detector's
    labels into [Anomaly_Flag] in row order (the i-th row gets the i-th
    label, computed once from the whole [Amount] column with contamination
    0.06 and seed 42), the first significant digit of each amount into
    [first_digit] and its formatted text into [Display_Amount]; the rows it
    flags are as many as the labels -1. *)
Theorem run_forensics_columns (g : RandomState) (df : DataFrame) :
  Forall (fun r => float_wf (Amount r) = true) df ->
  exists out,
    run_forensics RandomState fit_predict format_amount g df = Ok out /\
    let labels := fit_predict (6 # 100) (Some 42) g (Amount <$> df) in
    Anomaly_Flag <$> out = Some <$> labels /\
    first_digit <$> out = (fun r => Some (head_digit (Amount r))) <$> df /\
    Display_Amount <$> out = (fun r => Some (format_amount (Amount r))) <$> df /\
    length (flagged_rows out) = length (filter (fun v : Z => v = -1) labels).
Proof.
  intros Hwf. eexists. split.
  - by apply (run_forensics_Ok fit_predict format_amount fit_predict_one_label).
  - apply zip_annotate_columns. by rewrite fit_predict_one_label, length_fmap.
Qed.

End Columns.

Lemma run_forensics_columns_witness :
  exists out,
    run_forensics unit threshold_detector float_str tt raw_demo = Ok out /\
    Anomaly_Flag <$> out = [Some 1; Some 1; Some (-1)].
Proof.
  destruct (run_forensics_columns threshold_detector float_str
              ltac:(intros; apply length_fmap) tt raw_demo)
    as (out & Hrun & Hflags & _).
  - repeat constructor.
  - exists out. split; [exact Hrun | exact Hflags].
Defined.
